(** * CTSM: the site/regional base case and the mksurfdata job-script generator

    A shallow embedding of

    - [python/ctsm/site_and_regional/base_case.py] (class [BaseCase]:
      [create_1d_coord], [add_tag_to_filename], [update_metadata]), and
    - [tools/mksurfdata_esmf/gen_mksurfdata_jobscript_single.py] ([main]),

    together with the properties of these functions.

    Python text is a [string]: one [ascii] per code point below 256.  The
    process-wide collaborators (clock, user name, revision hash, location of
    the module, contents of the disk) are read from an explicit environment.
    Effects (log records, exceptions, [os.abort], [sys.exit], files written)
    are threaded through a state-and-outcome monad. *)

From Stdlib Require Import ZArith Ascii String List Lia DecimalString DecimalPos.
From stdpp Require Import gmap strings.

Local Open Scope Z_scope.

(* ===================================================================== *)
(** * Python primitives *)
(* ===================================================================== *)

Module Py.

(** The exceptions that the two programs can raise. *)
Inductive exn : Type :=
| IndexError
| KeyError
| ValueError
| MergeError
| FileNotFoundError
| OSError.

(** How a call ends: it returns, an exception propagates to the caller,
    the process is killed by [os.abort()], or [sys.exit(code)] is reached.
    [Unmodelled] marks a call into a third-party library with arguments
    for which this development does not describe the library (see
    [Xr.assign]); nothing is proved about such runs. *)
Inductive outcome (A : Type) : Type :=
| Returned (a : A)
| Raised (e : exn)
| Aborted
| Exited (code : Z)
| Unmodelled.
Arguments Returned {A} a.
Arguments Raised {A} e.
Arguments Aborted {A}.
Arguments Exited {A} code.
Arguments Unmodelled {A}.

(** State-and-outcome monad over a state [S] (log, file system, ...).  The
    state reached is kept on every outcome: what was logged or written
    before an exception stays logged or written. *)
Definition M (S A : Type) : Type := S -> outcome A * S.

Definition ret {S A} (a : A) : M S A := fun s => (Returned a, s).

Definition bind {S A B} (m : M S A) (k : A -> M S B) : M S B :=
  fun s =>
    match m s with
    | (Returned a, s') => k a s'
    | (Raised e, s') => (Raised e, s')
    | (Aborted, s') => (Aborted, s')
    | (Exited c, s') => (Exited c, s')
    | (Unmodelled, s') => (Unmodelled, s')
    end.

Definition raise {S A} (e : exn) : M S A := fun s => (Raised e, s).

(** [os.abort()]: the process receives SIGABRT; nothing returns. *)
Definition os_abort {S A} : M S A := fun s => (Aborted, s).

(** [sys.exit(code)]. *)
Definition sys_exit {S A} (code : Z) : M S A := fun s => (Exited code, s).

Definition modify {S} (f : S -> S) : M S unit := fun s => (Returned tt, f s).

(** A pure library call, which touches no state. *)
Definition lift {S A} (o : outcome A) : M S A := fun s => (o, s).

(** An operation that raises [e] when it has no result. *)
Definition or_raise {S A} (e : exn) (o : option A) : M S A :=
  match o with
  | Some a => ret a
  | None => raise e
  end.

Declare Scope py_scope.
Delimit Scope py_scope with py.
Notation "x <- m ;; k" := (bind m (fun x => k))
  (at level 100, m at next level, right associativity) : py_scope.
Notation "m ;;; k" := (bind m (fun _ => k))
  (at level 100, right associativity) : py_scope.

(** ** [logging]: the records handed to the root logger, oldest first. *)

Inductive level : Type := DEBUG | ERROR.
Definition log : Type := list (level * string).

Definition logging_debug (msg : string) : M log unit :=
  modify (fun l => l ++ [(DEBUG, msg)]).
Definition logging_error (msg : string) : M log unit :=
  modify (fun l => l ++ [(ERROR, msg)]).

(** ** [str] *)

Definition len (s : string) : Z := Z.of_nat (String.length s).

(** [s[i]]: a negative index counts from the end; outside
    [-len(s) .. len(s)-1] Python raises [IndexError] ([None] here). *)
Definition getitem (s : string) (i : Z) : option ascii :=
  let j := if i <? 0 then i + len s else i in
  if (j <? 0) || (len s <=? j) then None else String.get (Z.to_nat j) s.

(** [s[:stop]]: a negative [stop] counts from the end; the bound is clipped
    to [0 .. len(s)], slicing never raises. *)
Definition slice_to (s : string) (stop : Z) : string :=
  let j := if stop <? 0 then Z.max 0 (stop + len s) else Z.min stop (len s) in
  String.substring 0 (Z.to_nat j) s.

(** [s[start:]], same clipping. *)
Definition slice_from (s : string) (start : Z) : string :=
  let j := if start <? 0 then Z.max 0 (start + len s) else Z.min start (len s) in
  String.substring (Z.to_nat j) (String.length s - Z.to_nat j) s.

(** [s.rfind(c)] for a one-character [c]: the highest index of [c] in [s],
    or [-1]. *)
Fixpoint rfind (c : ascii) (s : string) : Z :=
  match s with
  | EmptyString => -1
  | String a r =>
      let k := rfind c r in
      if 0 <=? k then k + 1 else if Ascii.eqb a c then 0 else -1
  end.

(** ** [int(str)] and [str(int)] *)

(** The white space that [int()] skips around a literal, on the code
    points below 256: tab to carriage return and the space (the white space
    of C, which is what the parser tests on ASCII text) and the two
    white-space code points above 127, NEL and NBSP (which the conversion
    turns into spaces before it parses).  The separators 0x1C to 0x1F are
    white space for [str.isspace] but are not skipped by [int()]. *)
Definition int_isspace (c : ascii) : bool :=
  let n := Z.of_nat (nat_of_ascii c) in
  ((9 <=? n) && (n <=? 13)) || (n =? 32) || (n =? 133) || (n =? 160).

Definition digit_value (c : ascii) : option Z :=
  let n := Z.of_nat (nat_of_ascii c) in
  if (48 <=? n) && (n <=? 57) then Some (n - 48) else None.

(** Drops the leading white space. *)
Fixpoint lstrip (s : string) : string :=
  match s with
  | String c r => if int_isspace c then lstrip r else s
  | EmptyString => EmptyString
  end.

(** Drops the trailing white space. *)
Fixpoint rstrip (s : string) : string :=
  match s with
  | EmptyString => EmptyString
  | String c r =>
      match rstrip r with
      | EmptyString => if int_isspace c then EmptyString else String c EmptyString
      | r' => String c r'
      end
  end.

(** The digits of a literal, most significant first, with the single
    underscores that Python allows between two digits.  [acc] is the value
    read so far, [after_digit] tells whether the previous character was a
    digit: an underscore is legal only then, and the literal may not end
    on one. *)
Fixpoint int_digits (s : string) (acc : Z) (after_digit : bool) : option Z :=
  match s with
  | EmptyString => if after_digit then Some acc else None
  | String c r =>
      match digit_value c with
      | Some d => int_digits r (10 * acc + d) true
      | None =>
          if Ascii.eqb c "_" && after_digit then int_digits r acc false
          else None
      end
  end.

(** The interpreter's limit on conversions between [int] and [str]
    ([sys.get_int_max_str_digits()], 4300 unless configured; 0 switches it
    off): a conversion of more than 640 digits fails when the limit is on
    and the number of digits exceeds it. *)
Definition over_limit (max_str_digits digits : nat) : bool :=
  ((640 <? digits) && (0 <? max_str_digits) && (max_str_digits <? digits))%nat.

(** The number of decimal digits in a text. *)
Fixpoint count_digits (s : string) : nat :=
  match s with
  | EmptyString => 0%nat
  | String c r =>
      match digit_value c with
      | Some _ => S (count_digits r)
      | None => count_digits r
      end
  end.

(** The value of a literal in base 10: surrounding white space is
    dropped, then an optional sign, then the digits. *)
Definition int_literal (s : string) : option Z :=
  match rstrip (lstrip s) with
  | String "+" r => int_digits r 0 false
  | String "-" r => option_map Z.opp (int_digits r 0 false)
  | t => int_digits t 0 false
  end.

(** [int(s)].  [None] is [ValueError]: the text is not a literal, or it
    has more digits (leading zeros count, underscores and the sign do not)
    than the limit allows. *)
Definition int (max_str_digits : nat) (s : string) : option Z :=
  if over_limit max_str_digits (count_digits s) then None else int_literal s.

(** The decimal numeral of an integer. *)
Definition decimal (n : Z) : string :=
  NilZero.string_of_int (Z.to_int n).

(** [str(n)], also what an f-string field [{n}] gives for an integer.
    [None] is [ValueError]: the numeral has more digits than the limit
    allows (the sign does not count). *)
Definition str_of_int (max_str_digits : nat) (n : Z) : option string :=
  if over_limit max_str_digits (count_digits (decimal n)) then None
  else Some (decimal n).

(** [str(b)] of a [bool]. *)
Definition str_of_bool (b : bool) : string := if b then "True" else "False".

(** [sep.join(l)]. *)
Fixpoint join (sep : string) (l : list string) : string :=
  match l with
  | [] => EmptyString
  | [x] => x
  | x :: r => x +:+ sep +:+ join sep r
  end.

(** [sorted(l)] on texts: ascending in the order of [str], which compares
    code point by code point; equal elements keep their order. *)
Fixpoint insert_sorted (k : string) (l : list string) : list string :=
  match l with
  | [] => [k]
  | x :: r => if String.ltb k x then k :: l else x :: insert_sorted k r
  end.

Definition sorted (l : list string) : list string :=
  fold_left (fun acc k => insert_sorted k acc) l [].

End Py.

(* ===================================================================== *)
(** * [os.path] (POSIX flavour) *)
(* ===================================================================== *)

Module PosixPath.

(** [posixpath.basename]: [i = p.rfind('/') + 1; return p[i:]]. *)
Definition basename (p : string) : string :=
  let i := Py.rfind "/" p + 1 in
  Py.slice_from p i.

End PosixPath.

(* ===================================================================== *)
(** * [datetime.date] *)
(* ===================================================================== *)

Module Datetime.

Record date : Type := { year : Z; month : Z; day : Z }.

(** A calendar date as [date.today()] returns it; the length of the
    months is not needed here. *)
Definition plausible (d : date) : Prop :=
  1000 <= year d <= 9999 /\ 1 <= month d <= 12 /\ 1 <= day d <= 31.

Definition digit (n : Z) : ascii := ascii_of_nat (Z.to_nat (48 + n mod 10)).

(** A zero-padded two-digit decimal field. *)
Definition two_digits (n : Z) : string :=
  String (digit (n / 10)) (String (digit n) EmptyString).

(** [%y]: the year without its century. *)
Definition fmt_y (d : date) : string := two_digits (year d mod 100).
(** [%Y]: the year with its century (four digits from year 1000 on). *)
Definition fmt_Y (d : date) : string :=
  two_digits (year d / 100) +:+ two_digits (year d mod 100).
(** [%m] and [%d]. *)
Definition fmt_m (d : date) : string := two_digits (month d).
Definition fmt_d (d : date) : string := two_digits (day d).

(** [d.strftime("%y%m%d")]. *)
Definition strftime_ymd (d : date) : string := fmt_y d +:+ fmt_m d +:+ fmt_d d.

(** [d.strftime("%Y-%m-%d")]. *)
Definition strftime_Y_m_d (d : date) : string :=
  fmt_Y d +:+ "-" +:+ fmt_m d +:+ "-" +:+ fmt_d d.

End Datetime.

(* ===================================================================== *)
(** * [numpy]: arrays as a shape and a row-major buffer *)
(* ===================================================================== *)

Module Np.
Section Ndarray.
Context {elt : Type}.

Record ndarray : Type := { shape : list nat; flat : list elt }.

Definition size_of (sh : list nat) : nat := fold_right Nat.mul 1%nat sh.

(** The buffer holds exactly the elements the shape announces. *)
Definition well_shaped (a : ndarray) : Prop :=
  length (flat a) = size_of (shape a).

Definition ndim (a : ndarray) : nat := length (shape a).

(** [a[0, :]]: position 0 on the first axis, everything on the second
    (and on the later ones).  [None] is [IndexError]: fewer than two
    axes, or a first axis of size 0. *)
Definition row0 (a : ndarray) : option ndarray :=
  match shape a with
  | n0 :: n1 :: rest =>
      if (n0 =? 0)%nat then None
      else Some {| shape := n1 :: rest;
                   flat := firstn (n1 * size_of rest) (flat a) |}
  | _ => None
  end.

(** [a[:, 0]]: everything on the first axis, position 0 on the second.
    [None] is [IndexError]: fewer than two axes, or a second axis of
    size 0. *)
Definition col0 (a : ndarray) : option ndarray :=
  match shape a with
  | n0 :: n1 :: rest =>
      if (n1 =? 0)%nat then None
      else Some {| shape := n0 :: rest;
                   flat := concat (map (fun i => firstn (size_of rest)
                                          (skipn (i * (n1 * size_of rest)) (flat a)))
                                     (seq 0 n0)) |}
  | _ => None
  end.

(** [a[j]] of a one-dimensional array and [a[i, j]] of a two-dimensional
    one, for indices that are not negative. *)
Definition item1 (a : ndarray) (j : nat) : option elt :=
  match shape a with
  | [n] => if (j <? n)%nat then flat a !! j else None
  | _ => None
  end.

Definition item2 (a : ndarray) (i j : nat) : option elt :=
  match shape a with
  | [n0; n1] =>
      if ((i <? n0) && (j <? n1))%nat then flat a !! (i * n1 + j)%nat else None
  | _ => None
  end.

End Ndarray.
Arguments ndarray : clear implicits.
End Np.

(* ===================================================================== *)
(** * [xarray]: the part of the data model that [BaseCase] touches *)
(* ===================================================================== *)

(** This is a model of the library, not of code of this repository.  It
    follows xarray's documented data model: a dataset is a dictionary of
    variables (each an array over named dimensions), a set of names of
    variables that are coordinates, and a dictionary of global attributes.
    A coordinate whose only dimension carries its own name is an index. *)

Module Xr.
Import Py Np.

(** A global attribute: text or a number. *)
Inductive attr_value : Type :=
| AttrStr (s : string)
| AttrInt (z : Z).

Section Xarray.
Context {elt : Type}.

(** [xarray.Variable]. *)
Record Var : Type := { dims : list string; values : ndarray elt }.

(** [xarray.DataArray]: one variable with a name and its coordinates. *)
Record DataArray : Type :=
  { name : string; variable : Var; coords : list (string * Var) }.

(** [xarray.Dataset]. *)
Record Dataset : Type :=
  { variables : gmap string Var;
    coord_names : gset string;
    attrs : gmap string attr_value }.

(** [xr.DataArray(data, name=nm, dims=dim, coords={k: v, ...})] where
    [dims] is one dimension name: [data] has to be one-dimensional, and
    every coordinate given as a bare array has to be named after the
    dimension and to have its length; otherwise [ValueError]. *)
Definition new_DataArray (data : ndarray elt) (nm dim : string)
    (cs : list (string * ndarray elt)) : outcome DataArray :=
  match shape data with
  | [n] =>
      if forallb (fun kv : string * ndarray elt =>
                    String.eqb kv.1 dim && bool_decide (shape kv.2 = [n])) cs
      then Returned {| name := nm;
                       variable := {| dims := [dim]; values := data |};
                       coords := map (fun kv : string * ndarray elt =>
                                        (kv.1, {| dims := [kv.1]; values := kv.2 |})) cs |}
      else Raised ValueError
  | _ => Raised ValueError
  end.


(** A variable is an index when it is named after its only dimension. *)
Definition is_index (ds : Dataset) (k : string) : bool :=
  match variables ds !! k with
  | Some v => bool_decide (dims v = [k])
  | None => false
  end.

Definition is_scalar_var (vars : gmap string Var) (d : string) : bool :=
  match vars !! d with
  | Some v => bool_decide (dims v = [])
  | None => false
  end.

(** One variable's contribution to the sizes of the dimensions; [None]
    when a dimension is also the name of a scalar variable or when its
    size conflicts with the size already recorded. *)
Fixpoint add_dims (vars : gmap string Var) (l : list (string * nat))
    (acc : gmap string nat) : option (gmap string nat) :=
  match l with
  | [] => Some acc
  | (d, n) :: r =>
      if is_scalar_var vars d then None
      else match acc !! d with
           | None => add_dims vars r (<[d := n]> acc)
           | Some m => if bool_decide (m = n) then add_dims vars r acc else None
           end
  end.

Fixpoint dims_of_list (vars : gmap string Var) (l : list (string * Var))
    (acc : gmap string nat) : option (gmap string nat) :=
  match l with
  | [] => Some acc
  | (_, v) :: r =>
      match add_dims vars (zip (dims v) (shape (values v))) acc with
      | Some acc' => dims_of_list vars r acc'
      | None => None
      end
  end.

(** [calculate_dimensions]: the size of every dimension, [None]
    ([ValueError]) on a conflict. *)
Definition calculate_dimensions (vars : gmap string Var) : option (gmap string nat) :=
  dims_of_list vars (map_to_list vars) ∅.

(** What [ds[k]] is built from: a variable of the dataset, or, for a
    dimension [k] of size [n] that has no variable, the positions
    [0 .. n-1] along it. *)
Inductive item : Type :=
| Stored (v : Var)
| Positions (dim : string) (n : nat).

(** The part of [k] before its first dot, when it has one. *)
Fixpoint before_dot (k : string) : option string :=
  match k with
  | EmptyString => None
  | String c r =>
      if Ascii.eqb c "." then Some EmptyString
      else option_map (String c) (before_dot r)
  end.

(** [ds[k]].  A variable named [k] is returned as it is.  Otherwise a
    dimension named [k] gives its positions.  Otherwise a name
    [ref.attr] whose [ref] is a variable is resolved by xarray as an
    attribute of that variable, which is left out here: [Unmodelled].
    Every other name is a [KeyError]. *)
Definition getitem (ds : Dataset) (k : string) : outcome item :=
  match variables ds !! k with
  | Some v => Returned (Stored v)
  | None =>
      match calculate_dimensions (variables ds) with
      | None => Unmodelled
      | Some sizes =>
          match sizes !! k with
          | Some n => Returned (Positions k n)
          | None =>
              match before_dot k with
              | Some ref =>
                  match variables ds !! ref with
                  | Some _ => Unmodelled
                  | None => Raised KeyError
                  end
              | None => Raised KeyError
              end
          end
      end
  end.

(** [np.asarray(x[0, :])] and [np.asarray(x[:, 0])] for what [ds[k]]
    returned; the positions along a dimension have one axis, so both
    subscripts are one index too many for them.  [None] is
    [IndexError]. *)
Definition item_row0 (x : item) : option (ndarray elt) :=
  match x with
  | Stored v => row0 (values v)
  | Positions _ _ => None
  end.

Definition item_col0 (x : item) : option (ndarray elt) :=
  match x with
  | Stored v => col0 (values v)
  | Positions _ _ => None
  end.

(** The invariants that xarray keeps on a dataset whose dimensions have
    the sizes [sizes]: every variable has one size per dimension, in
    agreement with [sizes], and a buffer of the size its shape announces;
    no dimension is the name of a scalar variable; the coordinates are
    variables; a variable named after a dimension is a coordinate. *)
Definition var_fits (sizes : gmap string nat) (v : Var) : Prop :=
  Forall2 (fun d n => sizes !! d = Some n) (dims v) (shape (values v)).

Record well_formed (ds : Dataset) (sizes : gmap string nat) : Prop :=
  { wf_fits : map_Forall (fun _ v => var_fits sizes v) (variables ds);
    wf_shaped : map_Forall (fun _ v => well_shaped (values v)) (variables ds);
    wf_scalar : forall d, d ∈ dom sizes -> is_scalar_var (variables ds) d = false;
    wf_coords : coord_names ds ⊆ dom (variables ds);
    wf_dim_coords : forall d, d ∈ dom sizes -> d ∈ dom (variables ds) ->
                              d ∈ coord_names ds }.

(** What [{k: da}] brings into a merge: the array under the key [k] and
    the coordinates of [da] other than [k] itself. *)
Definition other_coords (kv : string * DataArray) : list (string * Var) :=
  List.filter (fun c : string * Var => negb (String.eqb c.1 kv.1)) (coords kv.2).

Definition entries (kv : string * DataArray) : list (string * Var) :=
  (kv.1, variable kv.2) :: other_coords kv.

(** [ds.assign({k: da, ...})].  The new arrays and their coordinates are
    merged into a copy of [ds] and take priority over what [ds] holds
    under the same names; [ds] itself is left as it is.  The names of the
    coordinates brought by the arrays become coordinates, as does every
    dimension that is the name of a variable; the keys that were not
    coordinates of [ds] are data variables.  A conflict of dimension
    sizes is a [ValueError]; a name that would be both a coordinate and a
    data variable of [ds] is a [MergeError].

    Where a name brought in is already a coordinate of [ds], or is
    brought in twice, xarray re-aligns the arrays by label along the
    indexes involved; that is left out: [Unmodelled]. *)
Definition assign (ds : Dataset) (new : list (string * DataArray)) : outcome Dataset :=
  let incoming := flat_map entries new in
  let names := map fst incoming in
  if negb (bool_decide (NoDup names))
     || existsb (fun k => bool_decide (k ∈ coord_names ds)) names
  then Unmodelled
  else
    let merged := foldr (fun kv m => <[kv.1 := kv.2]> m) (variables ds) incoming in
    match calculate_dimensions merged with
    | None => Raised ValueError
    | Some sizes =>
        let cn := coord_names ds
                  ∪ list_to_set (map fst (flat_map other_coords new))
                  ∪ (dom sizes ∩ dom merged) in
        let noncoord := dom (variables ds) ∖ coord_names ds in
        if bool_decide (cn ∩ noncoord = ∅)
        then Returned {| variables := merged;
                         coord_names := cn ∩ dom merged;
                         attrs := attrs ds |}
        else Raised MergeError
    end.

(** [ds.reset_coords(names)]: returns a NEW dataset in which [names] are
    data variables; [ds] is not changed.  [ValueError] when a name is
    not a variable of [ds] or is an index. *)
Definition reset_coords (ds : Dataset) (names : list string) : outcome Dataset :=
  if negb (forallb (fun k => bool_decide (k ∈ dom (variables ds))) names)
     || existsb (is_index ds) names
  then Raised ValueError
  else Returned {| variables := variables ds;
                   coord_names := coord_names ds ∖ list_to_set names;
                   attrs := attrs ds |}.

(** [ds.attrs[k] = v] and [del ds.attrs[k]] (the latter raises [KeyError]
    on a key that is not there). *)
Definition set_attr (ds : Dataset) (k : string) (v : attr_value) : Dataset :=
  {| variables := variables ds;
     coord_names := coord_names ds;
     attrs := <[k := v]> (attrs ds) |}.

Definition del_attr (ds : Dataset) (k : string) : outcome Dataset :=
  match attrs ds !! k with
  | Some _ => Returned {| variables := variables ds;
                          coord_names := coord_names ds;
                          attrs := delete k (attrs ds) |}
  | None => Raised KeyError
  end.

End Xarray.
Arguments Var : clear implicits.
Arguments DataArray : clear implicits.
Arguments Dataset : clear implicits.
End Xr.

(* ===================================================================== *)
(** * [python/ctsm/site_and_regional/base_case.py] *)
(* ===================================================================== *)

Module BaseCase.
Import Py Np Xr Datetime.
Local Open Scope py_scope.

(** The instance: the four flags that [__init__] records. *)
Record t : Type :=
  { create_domain : bool;
    create_surfdata : bool;
    create_landuse : bool;
    create_datm : bool }.

Definition init (create_domain create_surfdata create_landuse create_datm : bool) : t :=
  {| create_domain := create_domain;
     create_surfdata := create_surfdata;
     create_landuse := create_landuse;
     create_datm := create_datm |}.

(** A [@staticmethod] reached through an instance receives no [self]. *)
Definition static {F : Type} (self : t) (f : F) : F := f.

(** [self.__dict__] of an instance that [__init__] has filled: the four
    attributes in the order of the assignments. *)
Definition dict_of (self : t) : list (string * bool) :=
  [ ("create_domain", create_domain self);
    ("create_surfdata", create_surfdata self);
    ("create_landuse", create_landuse self);
    ("create_datm", create_datm self) ].

(** [d[item]]; [None] is [KeyError]. *)
Fixpoint dict_get (d : list (string * bool)) (item : string) : option bool :=
  match d with
  | [] => None
  | (k, v) :: r => if String.eqb k item then Some v else dict_get r item
  end.

(** [__str__].  [class_str] is [str(self.__class__)], the text
    ["<class 'module.BaseCase'>"] with the name under which the module was
    imported.  The lines are built for the names in [sorted(self.__dict__)];
    [None] is the [KeyError] of [self.__dict__[item]]. *)
Definition to_str (class_str : string) (self : t) : option string :=
  let d := dict_of self in
  match mapM (fun item => match dict_get d item with
                          | Some v => Some (item +:+ " = " +:+ Py.str_of_bool v)
                          | None => None
                          end)
             (Py.sorted (map fst d)) with
  | Some lines => Some (class_str +:+ String "010" EmptyString
                        +:+ Py.join (String "010" EmptyString) lines)
  | None => None
  end.

Section Methods.
Context {elt : Type}.

(** What the methods read from the process and the machine.

    Modelled from the spec: [get_git_short_hash] lives in
    [ctsm.git_utils], which is not among the sources at hand; it returns
    a short commit identifier string (or an agreed sentinel string), and
    whatever string it returns is embedded in the provenance attribute.
    That string is the field [git_short_hash].  [disk] gives, for a path,
    the dataset that [xr.open_dataset] decodes from the file there. *)
Record env : Type :=
  { today : date;
    getuser : string;
    abspath_of_file : string;
    git_short_hash : string;
    disk : gmap string (Dataset elt) }.

(** The files that [create_1d_coord] is written for: a dataset [f_in]
    with dimension sizes [sizes] that holds the two-dimensional fields
    [lon2d] and [lat2d] under the given names, both over the dimensions
    [y_dim] (of size [ny], rows) and [x_dim] (of size [nx], columns),
    with at least one row and one column; the two dimensions have no
    variable of their own yet; [lon] and [lat] are not yet the name of a
    variable, and a dimension is called [lon] only if it is [x_dim], and
    [lat] only if it is [y_dim]. *)
Record grid_file (f_in : Dataset elt) (sizes : gmap string nat)
    (lon_varname lat_varname x_dim y_dim : string)
    (lon2d lat2d : Var elt) (ny nx : nat) : Prop :=
  { gf_well_formed : well_formed f_in sizes;
    gf_lon : variables f_in !! lon_varname = Some lon2d;
    gf_lon_dims : dims lon2d = [y_dim; x_dim];
    gf_lat : variables f_in !! lat_varname = Some lat2d;
    gf_lat_dims : dims lat2d = [y_dim; x_dim];
    gf_rows : sizes !! y_dim = Some ny;
    gf_cols : sizes !! x_dim = Some nx;
    gf_some_row : (0 < ny)%nat;
    gf_some_col : (0 < nx)%nat;
    gf_two_dims : x_dim <> y_dim;
    gf_x_free : x_dim ∉ dom (variables f_in);
    gf_y_free : y_dim ∉ dom (variables f_in);
    gf_lon_new : ("lon" ∉ dom (variables f_in))
                 /\ ("lon" ∈ dom sizes -> x_dim = "lon");
    gf_lat_new : ("lat" ∉ dom (variables f_in))
                 /\ ("lat" ∈ dom sizes -> y_dim = "lat") }.

Definition open_dataset (e : env) (filename : string) : M log (Dataset elt) :=
  or_raise FileNotFoundError (disk e !! filename).

Definition create_1d_coord (e : env)
    (filename lon_varname lat_varname x_dim y_dim : string) : M log (Dataset elt) :=
  logging_debug ("Open file: " +:+ filename) ;;;
  f_in <- open_dataset e filename ;;
  (* create 1d coordinate variables to enable sel() method *)
  lon2d <- lift (getitem f_in lon_varname) ;;
  lon0 <- or_raise IndexError (item_row0 lon2d) ;;
  lat2d <- lift (getitem f_in lat_varname) ;;
  lat0 <- or_raise IndexError (item_col0 lat2d) ;;
  lon <- lift (new_DataArray lon0 "lon" x_dim [(x_dim, lon0)]) ;;
  lat <- lift (new_DataArray lat0 "lat" y_dim [(y_dim, lat0)]) ;;
  f_out <- lift (assign f_in [("lon", lon); ("lat", lat)]) ;;
  (* the dataset that reset_coords returns is dropped *)
  _ <- lift (reset_coords f_out [lon_varname; lat_varname]) ;;
  (* f_in.close() *)
  ret f_out.

Definition add_tag_to_filename (e : env) (filename tag : string) : M log string :=
  let basename := PosixPath.basename filename in
  let cend := -10 in
  c <- or_raise IndexError (Py.getitem basename cend) ;;
  let cend := if Ascii.eqb c "c" then cend - 1 else cend in
  b <- or_raise IndexError (Py.getitem basename cend) ;;
  (if negb (Ascii.eqb b ".") && negb (Ascii.eqb b "_")
   then logging_error ("Trouble figuring out where to add tag to filename:" +:+ filename) ;;;
        os_abort
   else ret tt) ;;;
  let today_string := strftime_ymd (today e) in
  let fname_out := Py.slice_to basename cend +:+ "_" +:+ tag +:+ "_c"
                   +:+ today_string +:+ ".nc" in
  ret fname_out.

(** Two adjacent literals in the source make one string: the fourth
    entry is the concatenation. *)
Definition del_attrs : list string :=
  [ "source_code";
    "SVN_url";
    "hostname";
    "history" +:+ "History_Log";
    "Logname";
    "Host";
    "Version";
    "Compiler_Optimized" ].

(** The loop [for attr in del_attrs: if attr in attr_list: ... del]. *)
Fixpoint delete_attrs (names : list string) (nc : Dataset elt) : M log (Dataset elt) :=
  match names with
  | [] => ret nc
  | attr :: rest =>
      nc' <- (if bool_decide (attr ∈ dom (attrs nc))
              then logging_debug ("This attr should be deleted : " +:+ attr) ;;;
                   lift (del_attr nc attr)
              else ret nc) ;;
      delete_attrs rest nc'
  end.

(** The dataset is changed in place in the source; here the changed
    dataset is the result. *)
Definition update_metadata (self : t) (e : env) (nc : Dataset elt) : M log (Dataset elt) :=
  (* update attributes *)
  let today_string := strftime_Y_m_d (today e) in
  (* get git hash *)
  let sha := git_short_hash e in
  let nc := set_attr nc "Created_on" (AttrStr today_string) in
  let nc := set_attr nc "Created_by" (AttrStr (getuser e)) in
  let nc := set_attr nc "Created_with" (AttrStr (abspath_of_file e +:+ " -- " +:+ sha)) in
  (* delete unrelated attributes if they exist *)
  delete_attrs del_attrs nc.

End Methods.
Arguments env : clear implicits.
End BaseCase.

(* ===================================================================== *)
(** * [tools/mksurfdata_esmf/gen_mksurfdata_jobscript_single.py] *)
(* ===================================================================== *)

Module Jobscript.
Import Py.
Local Open Scope py_scope.

Definition nl : string := String "010" EmptyString.
Definition dquote : string := String "034" EmptyString.

(** The parsed command line: what [get_parser().parse_args()] returns.
    Every value is text; [argparse] converts nothing here. *)
Record args : Type :=
  { verbose : bool;
    account : string;
    number_of_nodes : string;
    tasks_per_node : string;
    namelist_file : string;
    jobscript_file : string }.

(** The text files on disk, the text still buffered in the files open for
    writing, the paths that [open(path, "w")] accepts, the interpreter's
    limit on the digits of a conversion between [int] and [str], and what
    was printed. *)
Record world : Type :=
  { files : gmap string string;
    buffers : gmap string string;
    can_open : string -> bool;
    int_max_str_digits : nat;
    stdout : list string }.

(** [open(path, "w", encoding='utf-8')]: the file is created or
    truncated. *)
Definition open_w (path : string) : M world string :=
  fun w =>
    if can_open w path
    then (Returned path,
          {| files := <[path := EmptyString]> (files w);
             buffers := <[path := EmptyString]> (buffers w);
             can_open := can_open w;
             int_max_str_digits := int_max_str_digits w;
             stdout := stdout w |})
    else (Raised OSError, w).

(** [runfile.write(text)]. *)
Definition write (runfile : string) (text : string) : M world unit :=
  modify (fun w =>
    {| files := files w;
       buffers := alter (fun pending => pending +:+ text) runfile (buffers w);
       can_open := can_open w;
       int_max_str_digits := int_max_str_digits w;
       stdout := stdout w |}).

(** Closing flushes the buffered text to the file. *)
Definition close (runfile : string) (w : world) : world :=
  match buffers w !! runfile with
  | Some pending =>
      {| files := alter (fun old => old +:+ pending) runfile (files w);
         buffers := delete runfile (buffers w);
         can_open := can_open w;
         int_max_str_digits := int_max_str_digits w;
         stdout := stdout w |}
  | None => w
  end.

(** [with open(path, "w") as runfile: body]: the file is closed when the
    body returns and also when an exception leaves it. *)
Definition with_open {A} (path : string) (body : string -> M world A) : M world A :=
  runfile <- open_w path ;;
  fun w =>
    match body runfile w with
    | (Aborted, w') => (Aborted, w')
    | (Unmodelled, w') => (Unmodelled, w')
    | (o, w') => (o, close runfile w')
    end.

(** [int(s)] and the formatting of an integer, under the limit of the
    interpreter. *)
Definition py_int (s : string) : M world Z :=
  fun w => or_raise ValueError (int (int_max_str_digits w) s) w.

Definition py_str (n : Z) : M world string :=
  fun w => or_raise ValueError (str_of_int (int_max_str_digits w) n) w.

Definition print (text : string) : M world unit :=
  modify (fun w =>
    {| files := files w;
       buffers := buffers w;
       can_open := can_open w;
       int_max_str_digits := int_max_str_digits w;
       stdout := stdout w ++ [text +:+ nl] |}).

Definition main (a : args) : M world unit :=
  let namelist_file := namelist_file a in
  let jobscript_file := jobscript_file a in
  let number_of_nodes := number_of_nodes a in
  let tasks_per_node := tasks_per_node a in
  let account := account a in
  (* Write run script *)
  with_open jobscript_file (fun runfile =>
    write runfile ("#!/bin/bash " +:+ nl) ;;;
    write runfile ("#PBS -A " +:+ account +:+ " " +:+ nl) ;;;
    write runfile ("#PBS -N mksurfdata " +:+ nl) ;;;
    write runfile ("#PBS -j oe " +:+ nl) ;;;
    write runfile ("#PBS -q regular " +:+ nl) ;;;
    write runfile ("#PBS -l walltime=30:00 " +:+ nl) ;;;
    write runfile ("#PBS -l select=" +:+ number_of_nodes +:+ ":ncpus=36:mpiprocs="
                   +:+ tasks_per_node +:+ " " +:+ nl) ;;;
    write runfile nl ;;;
    t <- py_int tasks_per_node ;;
    n <- py_int number_of_nodes ;;
    let np := t * n in
    np_text <- py_str np ;;
    let output := "mpiexec_mpt -p " +:+ dquote +:+ "%g:" +:+ dquote +:+ " -np "
                  +:+ np_text +:+ " ./src/mksurfdata < " +:+ namelist_file in
    write runfile (output +:+ " " +:+ nl)) ;;;
  print ("Successfully created jobscript " +:+ jobscript_file) ;;;
  sys_exit 0.

(** ** The format of the specification

    The job script text as the format block of the specification gives
    it, line by line, for a numeric node count and tasks-per-node count.
    It follows the words of the specification, not the source, and is
    what [main] is compared with. *)
Definition spec_lines (account : string) (nodes tasks : Z) (namelist : string) : list string :=
  [ "#!/bin/bash";
    "#PBS -A " +:+ account;
    "#PBS -N mksurfdata";
    "#PBS -j oe";
    "#PBS -q regular";
    "#PBS -l walltime=30:00";
    "#PBS -l select=" +:+ decimal nodes +:+ ":ncpus=36:mpiprocs=" +:+ decimal tasks;
    "";
    "mpiexec_mpt -p " +:+ dquote +:+ "%g:" +:+ dquote +:+ " -np "
      +:+ decimal (nodes * tasks) +:+ " ./src/mksurfdata < " +:+ namelist ].

(** Every line ended by a newline. *)
Definition unlines (ls : list string) : string :=
  fold_right (fun l r => l +:+ nl +:+ r) EmptyString ls.

Definition spec_text (account : string) (nodes tasks : Z) (namelist : string) : string :=
  unlines (spec_lines account nodes tasks namelist).

(** A line of the format followed by a space, unless it is the empty
    line. *)
Definition with_trailing_space (line : string) : string :=
  match line with
  | EmptyString => EmptyString
  | _ => line +:+ " "
  end.

(** The lines of a text, as [text.split("\n")] cuts them. *)
Fixpoint split_lines (s : string) : list string :=
  match s with
  | EmptyString => [EmptyString]
  | String c r =>
      if Ascii.eqb c "010" then EmptyString :: split_lines r
      else match split_lines r with
           | l :: ls => String c l :: ls
           | [] => [String c EmptyString]
           end
  end.

End Jobscript.

(* ===================================================================== *)
(** * Concrete inputs *)
(* ===================================================================== *)

Module Examples.
Import Py Np Xr.

(** A 2 x 3 domain file in the layout of the CTSM domain files: the fields
    [xc], [yc] and [mask] over the dimensions [nj] (rows) and [ni]
    (columns).  [mask] names [xc] and [yc] in its [coordinates] attribute,
    so that [xr.open_dataset] decodes the two as coordinates.  The grid
    values stand for degrees. *)
Definition grid (vals : list Z) : Var Z :=
  {| dims := ["nj"; "ni"]; values := {| shape := [2; 3]%nat; flat := vals |} |}.

Definition domain_dataset : Dataset Z :=
  {| variables := {[ "xc" := grid [10; 20; 30; 10; 20; 30];
                     "yc" := grid [5; 5; 5; 6; 6; 6];
                     "mask" := grid [1; 1; 0; 0; 1; 1] ]};
     coord_names := {[ "xc"; "yc" ]};
     attrs := {[ "title" := AttrStr "domain";
                 "Version" := AttrStr "1";
                 "History_Log" := AttrStr "created";
                 "Created_on" := AttrInt 0 ]} |}.

(** The sizes of its dimensions. *)
Definition sizes : gmap string nat := {[ "nj" := 2%nat; "ni" := 3%nat ]}.

Definition env0 : BaseCase.env Z :=
  {| BaseCase.today := {| Datetime.year := 2026; Datetime.month := 11; Datetime.day := 3 |};
     BaseCase.getuser := "ctsm";
     BaseCase.abspath_of_file := "/ctsm/python/ctsm/site_and_regional/base_case.py";
     BaseCase.git_short_hash := "0a1b2c3";
     BaseCase.disk := {[ "domain.nc" := domain_dataset ]} |}.

(** A 2 x 3 file whose dimensions carry the names that the docstring of
    [create_1d_coord] gives for them, [lat] (rows) and [lon] (columns),
    with the two-dimensional fields [LONGXY] and [LATIXY]. *)
Definition lonlat_field (vals : list Z) : Var Z :=
  {| dims := ["lat"; "lon"]; values := {| shape := [2; 3]%nat; flat := vals |} |}.

Definition lonlat_dataset : Dataset Z :=
  {| variables := {[ "LONGXY" := lonlat_field [10; 20; 30; 10; 20; 30];
                     "LATIXY" := lonlat_field [5; 5; 5; 6; 6; 6] ]};
     coord_names := ∅;
     attrs := ∅ |}.

Definition lonlat_sizes : gmap string nat := {[ "lat" := 2%nat; "lon" := 3%nat ]}.

Definition env_lonlat : BaseCase.env Z :=
  {| BaseCase.today := {| Datetime.year := 2026; Datetime.month := 11; Datetime.day := 3 |};
     BaseCase.getuser := "ctsm";
     BaseCase.abspath_of_file := "/ctsm/python/ctsm/site_and_regional/base_case.py";
     BaseCase.git_short_hash := "0a1b2c3";
     BaseCase.disk := {[ "surfdata.nc" := lonlat_dataset ]} |}.

Definition case0 : BaseCase.t := BaseCase.init true true false false.

Definition args0 : Jobscript.args :=
  {| Jobscript.verbose := false;
     Jobscript.account := "P1";
     Jobscript.number_of_nodes := "2";
     Jobscript.tasks_per_node := "4";
     Jobscript.namelist_file := "nl.txt";
     Jobscript.jobscript_file := "out.sh" |}.

(** A node count that is not a number. *)
Definition args_bad : Jobscript.args :=
  {| Jobscript.verbose := false;
     Jobscript.account := "P1";
     Jobscript.number_of_nodes := "two";
     Jobscript.tasks_per_node := "4";
     Jobscript.namelist_file := "nl.txt";
     Jobscript.jobscript_file := "out.sh" |}.

(** An empty disk on which every path but the empty one can be opened,
    under an interpreter with the default limit on digits. *)
Definition world0 : Jobscript.world :=
  {| Jobscript.files := ∅;
     Jobscript.buffers := ∅;
     Jobscript.can_open := fun path => negb (String.eqb path EmptyString);
     Jobscript.int_max_str_digits := 4300;
     Jobscript.stdout := [] |}.

End Examples.

Module MoreExamples.
Import Py Np Xr.

(** A file whose fields have one axis only. *)
Definition profile_dataset : Dataset Z :=
  {| variables := {[ "xc" := {| dims := ["n"];
                                values := {| shape := [3]%nat; flat := [10; 20; 30] |} |};
                     "yc" := {| dims := ["n"];
                                values := {| shape := [3]%nat; flat := [5; 5; 6] |} |} ]};
     coord_names := ∅;
     attrs := ∅ |}.

(** A file whose longitude field has a leading time axis. *)
Definition cube_dataset : Dataset Z :=
  {| variables := {[ "xc" := {| dims := ["time"; "nj"; "ni"];
                                values := {| shape := [1; 2; 3]%nat;
                                             flat := [10; 20; 30; 10; 20; 30] |} |};
                     "yc" := Examples.grid [5; 5; 5; 6; 6; 6] ]};
     coord_names := ∅;
     attrs := ∅ |}.

Definition env1 : BaseCase.env Z :=
  {| BaseCase.today := {| Datetime.year := 2026; Datetime.month := 11; Datetime.day := 3 |};
     BaseCase.getuser := "ctsm";
     BaseCase.abspath_of_file := "/ctsm/python/ctsm/site_and_regional/base_case.py";
     BaseCase.git_short_hash := "0a1b2c3";
     BaseCase.disk := {[ "domain.nc" := Examples.domain_dataset;
                         "profile.nc" := profile_dataset;
                         "cube.nc" := cube_dataset ]} |}.

(** Counts given as numerals, one of them negative. *)
Definition args_numerals : Jobscript.args :=
  {| Jobscript.verbose := false;
     Jobscript.account := "P93300606";
     Jobscript.number_of_nodes := decimal (-2);
     Jobscript.tasks_per_node := decimal 36;
     Jobscript.namelist_file := "surfdata.namelist";
     Jobscript.jobscript_file := "mksurfdata_jobscript_single" |}.

End MoreExamples.

(* ===================================================================== *)
(** * Properties *)
(* ===================================================================== *)

(** ** Text: indexing and slicing from the end *)

Section StrFacts.
Import Py.

Lemma append_nil (s : string) : EmptyString +:+ s = s.
Proof. reflexivity. Qed.

Lemma append_cons (c : ascii) (a b : string) :
  String c a +:+ b = String c (a +:+ b).
Proof. reflexivity. Qed.

Lemma len_app (a b : string) : len (a +:+ b) = len a + len b.
Proof.
  unfold len. induction a as [|c a IH].
  - rewrite append_nil. cbn [String.length]. lia.
  - rewrite append_cons. cbn [String.length]. rewrite !Nat2Z.inj_succ. lia.
Qed.

Lemma len_cons (c : ascii) (s : string) : len (String c s) = 1 + len s.
Proof. unfold len. cbn [String.length]. lia. Qed.

Lemma len_nonneg (s : string) : 0 <= len s.
Proof. unfold len. lia. Qed.

Lemma get_after (p : string) (c : ascii) (t : string) :
  String.get (String.length p) (p +:+ String c t) = Some c.
Proof.
  induction p as [|a p IH].
  - reflexivity.
  - rewrite append_cons. exact IH.
Qed.

Lemma substring_before (p s : string) :
  String.substring 0 (String.length p) (p +:+ s) = p.
Proof.
  induction p as [|a p IH].
  - rewrite append_nil. destruct s; reflexivity.
  - rewrite append_cons. cbn [String.length String.substring]. now rewrite IH.
Qed.

(** The character that has [k] characters after it is at index [-(k+1)]. *)
Lemma getitem_from_end (p : string) (c : ascii) (t : string) (i : Z) :
  i = - (1 + len t) ->
  getitem (p +:+ String c t) i = Some c.
Proof.
  intros ->. unfold getitem.
  pose proof (len_nonneg t) as Ht. pose proof (len_nonneg p) as Hp.
  rewrite len_app, len_cons.
  destruct (Z.ltb_spec (- (1 + len t)) 0) as [_|]; [|lia].
  replace (- (1 + len t) + (len p + (1 + len t))) with (len p) by lia.
  destruct (Z.ltb_spec (len p) 0); [lia|].
  destruct (Z.leb_spec (len p + (1 + len t)) (len p)); [lia|].
  simpl. unfold len. rewrite Nat2Z.id. apply get_after.
Qed.

(** Cutting at that index leaves what is before the character. *)
Lemma slice_to_from_end (p : string) (c : ascii) (t : string) (i : Z) :
  i = - (1 + len t) ->
  slice_to (p +:+ String c t) i = p.
Proof.
  intros ->. unfold slice_to.
  pose proof (len_nonneg t) as Ht. pose proof (len_nonneg p) as Hp.
  rewrite len_app, len_cons.
  destruct (Z.ltb_spec (- (1 + len t)) 0) as [_|]; [|lia].
  replace (Z.max 0 (- (1 + len t) + (len p + (1 + len t)))) with (len p) by lia.
  unfold len. rewrite Nat2Z.id. apply substring_before.
Qed.

(** Too far from the end: [IndexError]. *)
Lemma getitem_out_of_range (s : string) (i : Z) :
  i < - len s -> getitem s i = None.
Proof.
  intros Hi. unfold getitem. pose proof (len_nonneg s).
  destruct (Z.ltb_spec i 0); [|lia].
  destruct (Z.ltb_spec (i + len s) 0); [reflexivity|lia].
Qed.

Lemma getitem_first (c : ascii) (s : string) (i : Z) :
  i = - len (String c s) -> getitem (String c s) i = Some c.
Proof.
  intros ->. unfold getitem. rewrite len_cons. pose proof (len_nonneg s).
  destruct (Z.ltb_spec (- (1 + len s)) 0); [|lia].
  replace (- (1 + len s) + (1 + len s)) with 0 by lia.
  simpl. destruct (Z.leb_spec (1 + len s) 0); [lia|reflexivity].
Qed.

End StrFacts.

(** ** [add_tag_to_filename] *)

Section AddTag.
Import Py BaseCase.
Context {elt : Type}.
Implicit Types (e : env elt) (l : log).

Lemma append_assoc (a b c : string) : (a +:+ b) +:+ c = a +:+ (b +:+ c).
Proof.
  induction a as [|x a IH].
  - now rewrite !append_nil.
  - rewrite !append_cons. now rewrite IH.
Qed.

(** The name that tagging builds from the part before the boundary. *)
Lemma add_tag_run e filename tag l (prefix : string) (ch : ascii) (tail : string) :
  PosixPath.basename filename = prefix +:+ String ch tail ->
  (String.length tail = 9%nat /\ ch <> "c"%char)
  \/ (String.length tail = 10%nat /\ String.get 0 tail = Some "c"%char) ->
  add_tag_to_filename e filename tag l =
    if negb (Ascii.eqb ch ".") && negb (Ascii.eqb ch "_")
    then (Aborted,
          l ++ [(ERROR, "Trouble figuring out where to add tag to filename:" +:+ filename)])
    else (Returned (prefix +:+ "_" +:+ tag +:+ "_c"
                    +:+ Datetime.strftime_ymd (today e) +:+ ".nc"), l).
Proof.
  intros Hb Hcase. unfold add_tag_to_filename. rewrite Hb.
  destruct Hcase as [[Hlen Hc] | [Hlen Hc]].
  - assert (Hi : -10 = - (1 + len tail)) by (unfold len; lia).
    unfold bind at 1. unfold or_raise at 1.
    rewrite (getitem_from_end prefix ch tail (-10) Hi). unfold ret at 1.
    apply Ascii.eqb_neq in Hc. rewrite Hc.
    unfold bind at 1. unfold or_raise at 1.
    rewrite (getitem_from_end prefix ch tail (-10) Hi). unfold ret at 1.
    rewrite (slice_to_from_end prefix ch tail (-10) Hi).
    destruct (negb (Ascii.eqb ch ".") && negb (Ascii.eqb ch "_")); reflexivity.
  - destruct tail as [|c tail']; [discriminate|].
    cbn [String.get] in Hc. injection Hc as ->.
    cbn [String.length] in Hlen.
    assert (Hi : -10 = - (1 + len tail')) by (unfold len; lia).
    assert (Hj : -10 - 1 = - (1 + len (String "c" tail')))
      by (rewrite len_cons; unfold len; lia).
    assert (Hsplit : prefix +:+ String ch (String "c" tail')
                     = (prefix +:+ String ch EmptyString) +:+ String "c" tail')
      by (now rewrite append_assoc, append_cons, append_nil).
    assert (G10 : getitem (prefix +:+ String ch (String "c" tail')) (-10)
                  = Some "c"%char)
      by (rewrite Hsplit; now apply getitem_from_end).
    unfold bind at 1. unfold or_raise at 1.
    rewrite G10. unfold ret at 1.
    rewrite Ascii.eqb_refl.
    unfold bind at 1. unfold or_raise at 1.
    rewrite (getitem_from_end prefix ch _ (-10 - 1) Hj). unfold ret at 1.
    rewrite (slice_to_from_end prefix ch _ (-10 - 1) Hj).
    destruct (negb (Ascii.eqb ch ".") && negb (Ascii.eqb ch "_")); reflexivity.
Qed.

(** C1.  A filename whose base name carries ['.'] or ['_'] at the boundary
    (the character with nine characters after it, or the one before it when
    that character is ['c']) is renamed to the part before the boundary
    followed by ['_'], the tag, ['_c'], today's date as YYMMDD and ['.nc'],
    and nothing is logged.  In particular ["foo_bar.c210101.nc"] tagged
    ["hist"] gives ["foo_bar_hist_c<YYMMDD>.nc"], and ["foo_210101.nc"]
    tagged ["v2"] gives ["foo_v2_c<YYMMDD>.nc"]. *)
Theorem add_tag_to_filename_tagged e filename tag l
    (prefix : string) (sep : ascii) (tail : string) :
  PosixPath.basename filename = prefix +:+ String sep tail ->
  sep = "."%char \/ sep = "_"%char ->
  String.length tail = 9%nat
  \/ (String.length tail = 10%nat /\ String.get 0 tail = Some "c"%char) ->
  add_tag_to_filename e filename tag l
    = (Returned (prefix +:+ "_" +:+ tag +:+ "_c"
                 +:+ Datetime.strftime_ymd (today e) +:+ ".nc"), l)
  /\ add_tag_to_filename e "foo_bar.c210101.nc" "hist" l
     = (Returned ("foo_bar_hist_c" +:+ Datetime.strftime_ymd (today e) +:+ ".nc"), l)
  /\ add_tag_to_filename e "foo_210101.nc" "v2" l
     = (Returned ("foo_v2_c" +:+ Datetime.strftime_ymd (today e) +:+ ".nc"), l).
Proof.
  intros Hb Hsep Htail.
  assert (Hgo : forall f t p s tl,
             PosixPath.basename f = p +:+ String s tl ->
             s = "."%char \/ s = "_"%char ->
             String.length tl = 9%nat
             \/ (String.length tl = 10%nat /\ String.get 0 tl = Some "c"%char) ->
             add_tag_to_filename e f t l
             = (Returned (p +:+ "_" +:+ t +:+ "_c"
                          +:+ Datetime.strftime_ymd (today e) +:+ ".nc"), l)).
  { intros f t p s tl Hf Hs Htl.
    rewrite (add_tag_run e f t l p s tl Hf).
    - destruct Hs as [-> | ->]; reflexivity.
    - destruct Htl as [H9 | H10]; [left | right; exact H10].
      split; [exact H9|]. destruct Hs as [-> | ->]; discriminate. }
  split; [exact (Hgo filename tag prefix sep tail Hb Hsep Htail)|]. split.
  - apply (Hgo "foo_bar.c210101.nc" "hist" "foo_bar" "."%char "c210101.nc"%string).
    + reflexivity.
    + now left.
    + right. split; reflexivity.
  - apply (Hgo "foo_210101.nc" "v2" "foo" "_"%char "210101.nc"%string).
    + reflexivity.
    + now right.
    + left. reflexivity.
Qed.

(** C6.  A filename whose base name fails the boundary check (the
    character with nine characters after it, or the one before it when that
    character is ['c'], is neither ['.'] nor ['_']) makes the call log one
    error record and end in [os.abort()]: no string is returned and no
    exception reaches the caller. *)
Theorem add_tag_to_filename_aborts e filename tag l
    (prefix : string) (ch : ascii) (tail : string) :
  PosixPath.basename filename = prefix +:+ String ch tail ->
  (String.length tail = 9%nat /\ ch <> "c"%char)
  \/ (String.length tail = 10%nat /\ String.get 0 tail = Some "c"%char) ->
  ch <> "."%char -> ch <> "_"%char ->
  add_tag_to_filename e filename tag l
    = (Aborted,
       l ++ [(ERROR, "Trouble figuring out where to add tag to filename:" +:+ filename)]).
Proof.
  intros Hb Hcase Hdot Hus.
  rewrite (add_tag_run e filename tag l prefix ch tail Hb Hcase).
  apply Ascii.eqb_neq in Hdot, Hus. now rewrite Hdot, Hus.
Qed.

(** C7.  A base name of fewer than ten characters, or of exactly ten
    characters of which the first is ['c'], makes the call raise
    [IndexError] at the unguarded index [-10] (or [-11]): before the
    boundary check, with nothing logged, nothing returned and no abort. *)
Theorem add_tag_to_filename_index_error e filename tag l :
  (String.length (PosixPath.basename filename) < 10)%nat
  \/ (String.length (PosixPath.basename filename) = 10%nat
      /\ String.get 0 (PosixPath.basename filename) = Some "c"%char) ->
  add_tag_to_filename e filename tag l = (Raised IndexError, l).
Proof.
  intros Hshort. unfold add_tag_to_filename.
  set (b := PosixPath.basename filename) in *.
  destruct Hshort as [Hlt | [Hlen Hc]].
  - unfold bind at 1. unfold or_raise at 1.
    rewrite (getitem_out_of_range b (-10)) by (unfold len; lia).
    reflexivity.
  - destruct b as [|c b']; [discriminate|].
    cbn [String.get] in Hc. injection Hc as ->.
    unfold bind at 1. unfold or_raise at 1.
    rewrite (getitem_first "c" b' (-10))
      by (unfold len; cbn [String.length] in *; lia).
    unfold ret at 1. rewrite Ascii.eqb_refl.
    unfold bind at 1. unfold or_raise at 1.
    rewrite (getitem_out_of_range (String "c" b') (-10 - 1))
      by (unfold len; cbn [String.length] in *; lia).
    reflexivity.
Qed.

End AddTag.

Lemma add_tag_to_filename_tagged_witness :
  BaseCase.add_tag_to_filename Examples.env0 "/data/surfdata_0.9x1.25_c210101.nc" "BRA" []
  = (Py.Returned "surfdata_0.9x1.25_BRA_c261103.nc", []).
Proof.
  apply (add_tag_to_filename_tagged Examples.env0 "/data/surfdata_0.9x1.25_c210101.nc"
           "BRA" [] "surfdata_0.9x1.25" "_"%char "c210101.nc").
  - reflexivity.
  - right. reflexivity.
  - right. split; reflexivity.
Defined.

Lemma add_tag_to_filename_aborts_witness :
  BaseCase.add_tag_to_filename Examples.env0 "in/domain-210101.nc" "BRA" []
  = (Py.Aborted,
     [(Py.ERROR, "Trouble figuring out where to add tag to filename:in/domain-210101.nc")]).
Proof.
  apply (add_tag_to_filename_aborts Examples.env0 "in/domain-210101.nc" "BRA" []
           "domain" "-"%char "210101.nc").
  - reflexivity.
  - left. split; [reflexivity | discriminate].
  - discriminate.
  - discriminate.
Defined.

Lemma add_tag_to_filename_index_error_witness :
  BaseCase.add_tag_to_filename Examples.env0 "run/c210101.nc" "BRA" []
  = (Py.Raised Py.IndexError, []).
Proof.
  apply (add_tag_to_filename_index_error Examples.env0 "run/c210101.nc" "BRA" []).
  right. split; reflexivity.
Defined.

(** ** [update_metadata] *)

Section UpdateMetadata.
Import Py Xr BaseCase.
Context {elt : Type}.
Implicit Types (e : env elt) (nc : Dataset elt) (l : log) (self : t).

(** The deleting loop never raises: it returns the dataset without the
    listed attributes, everything else as it was. *)
Lemma delete_attrs_run (names : list string) nc l :
  exists nc' l',
    delete_attrs names nc l = (Returned nc', l')
    /\ variables nc' = variables nc
    /\ coord_names nc' = coord_names nc
    /\ forall k, attrs nc' !! k
                 = if bool_decide (k ∈ names) then None else attrs nc !! k.
Proof.
  revert nc l. induction names as [|a names IH]; intros nc l.
  - exists nc, l. repeat split; try reflexivity.
  - cbn [delete_attrs]. unfold bind at 1.
    destruct (bool_decide (a ∈ dom (attrs nc))) eqn:Hin.
    + apply bool_decide_eq_true in Hin. apply elem_of_dom in Hin as [v Hv].
      unfold bind at 1, logging_debug, modify, lift, del_attr. rewrite Hv.
      destruct (IH {| variables := variables nc; coord_names := coord_names nc;
                      attrs := delete a (attrs nc) |}
                   (l ++ [(DEBUG, "This attr should be deleted : " +:+ a)]))
        as (nc' & l' & Hrun & Hvars & Hcn & Hat).
      exists nc', l'. split; [exact Hrun|]. split; [exact Hvars|]. split; [exact Hcn|].
      intros k. rewrite Hat. cbn [attrs].
      destruct (decide (k = a)) as [->|Hne].
      * rewrite lookup_delete_eq.
        rewrite (bool_decide_eq_true_2 (a ∈ a :: names)) by left.
        now destruct (bool_decide (a ∈ names)).
      * rewrite lookup_delete_ne by congruence.
        destruct (bool_decide (k ∈ names)) eqn:Hk.
        -- apply bool_decide_eq_true in Hk.
           now rewrite (bool_decide_eq_true_2 (k ∈ a :: names)) by now right.
        -- apply bool_decide_eq_false in Hk.
           rewrite (bool_decide_eq_false_2 (k ∈ a :: names)); [reflexivity|].
           intros [?|?]%elem_of_cons; congruence.
    + apply bool_decide_eq_false in Hin.
      assert (Hnone : attrs nc !! a = None) by now apply not_elem_of_dom.
      unfold ret at 1.
      destruct (IH nc l) as (nc' & l' & Hrun & Hvars & Hcn & Hat).
      exists nc', l'. split; [exact Hrun|]. split; [exact Hvars|]. split; [exact Hcn|].
      intros k. rewrite Hat.
      destruct (decide (k = a)) as [->|Hne].
      * rewrite (bool_decide_eq_true_2 (a ∈ a :: names)) by left.
        now destruct (bool_decide (a ∈ names)).
      * destruct (bool_decide (k ∈ names)) eqn:Hk.
        -- apply bool_decide_eq_true in Hk.
           now rewrite (bool_decide_eq_true_2 (k ∈ a :: names)) by now right.
        -- apply bool_decide_eq_false in Hk.
           rewrite (bool_decide_eq_false_2 (k ∈ a :: names)); [reflexivity|].
           intros [?|?]%elem_of_cons; congruence.
Qed.

(** What [update_metadata] leaves in the attributes, key by key. *)
Lemma update_metadata_run self e nc l :
  exists nc' l',
    update_metadata self e nc l = (Returned nc', l')
    /\ variables nc' = variables nc
    /\ coord_names nc' = coord_names nc
    /\ forall k, attrs nc' !! k
                 = if bool_decide (k ∈ del_attrs) then None
                   else (<["Created_with" :=
                             AttrStr (abspath_of_file e +:+ " -- " +:+ git_short_hash e)]>
                         (<["Created_by" := AttrStr (getuser e)]>
                          (<["Created_on" :=
                               AttrStr (Datetime.strftime_Y_m_d (today e))]>
                           (attrs nc)))) !! k.
Proof.
  unfold update_metadata.
  destruct (delete_attrs_run del_attrs
              (set_attr (set_attr (set_attr nc "Created_on"
                                     (AttrStr (Datetime.strftime_Y_m_d (today e))))
                                  "Created_by" (AttrStr (getuser e)))
                        "Created_with"
                        (AttrStr (abspath_of_file e +:+ " -- " +:+ git_short_hash e))) l)
    as (nc' & l' & Hrun & Hvars & Hcn & Hat).
  exists nc', l'. repeat split; assumption.
Qed.

(** Decides whether a given name is on a given list. *)
Ltac decide_listed :=
  match goal with
  | |- context [bool_decide (?k ∈ ?names)] =>
      let b := eval vm_compute in (bool_decide (k ∈ names)) in
      change (bool_decide (k ∈ names)) with b; cbv iota
  end.

(** C5.  [update_metadata] always returns.  In the dataset it leaves,
    [Created_on] is today's date as YYYY-MM-DD, [Created_by] the current
    user and [Created_with] the path of the module, [" -- "] and the short
    revision hash, whatever these attributes held before; the eight legacy
    names ([historyHistory_Log] is one of them, as one key) are absent,
    whether or not they were present before; [history] and [History_Log]
    on their own are left as they were. *)
Theorem update_metadata_provenance self e nc l :
  exists nc' l',
    update_metadata self e nc l = (Returned nc', l')
    /\ attrs nc' !! "Created_on" = Some (AttrStr (Datetime.strftime_Y_m_d (today e)))
    /\ attrs nc' !! "Created_by" = Some (AttrStr (getuser e))
    /\ attrs nc' !! "Created_with"
       = Some (AttrStr (abspath_of_file e +:+ " -- " +:+ git_short_hash e))
    /\ Forall (fun k : string => attrs nc' !! k = None)
         [ "source_code"; "SVN_url"; "hostname"; "historyHistory_Log";
           "Logname"; "Host"; "Version"; "Compiler_Optimized" ]
    /\ attrs nc' !! "history" = attrs nc !! "history"
    /\ attrs nc' !! "History_Log" = attrs nc !! "History_Log".
Proof.
  destruct (update_metadata_run self e nc l) as (nc' & l' & Hrun & _ & _ & Hat).
  exists nc', l'. split; [exact Hrun|].
  repeat split; try (repeat constructor); rewrite Hat; decide_listed;
    now repeat (rewrite lookup_insert_eq || rewrite lookup_insert_ne by discriminate).
Qed.

(** C8.  With the date, the user and the revision hash unchanged, a second
    [update_metadata] on the dataset that the first one left returns that
    same dataset: same attributes, same variables, same coordinates. *)
Theorem update_metadata_idempotent self e nc l :
  exists nc1 l1 l2,
    update_metadata self e nc l = (Returned nc1, l1)
    /\ update_metadata self e nc1 l1 = (Returned nc1, l2).
Proof.
  destruct (update_metadata_run self e nc l) as (nc1 & l1 & Hrun1 & Hv1 & Hc1 & Hat1).
  destruct (update_metadata_run self e nc1 l1) as (nc2 & l2 & Hrun2 & Hv2 & Hc2 & Hat2).
  exists nc1, l1, l2. split; [exact Hrun1|].
  rewrite Hrun2. f_equal. f_equal.
  destruct nc1 as [v1 c1 a1], nc2 as [v2 c2 a2]. cbn [variables coord_names attrs] in *.
  f_equal; [congruence | congruence |].
  apply map_eq. intros k. rewrite Hat2. rewrite Hat1.
  destruct (bool_decide (k ∈ del_attrs)) eqn:Hk; [reflexivity|].
  destruct (decide (k = "Created_with")) as [->|H1]; [now rewrite !lookup_insert_eq|].
  rewrite !(lookup_insert_ne _ "Created_with") by congruence.
  destruct (decide (k = "Created_by")) as [->|H2]; [now rewrite !lookup_insert_eq|].
  rewrite !(lookup_insert_ne _ "Created_by") by congruence.
  destruct (decide (k = "Created_on")) as [->|H3]; [now rewrite !lookup_insert_eq|].
  rewrite !(lookup_insert_ne _ "Created_on") by congruence.
  rewrite Hat1. rewrite Hk.
  now rewrite !lookup_insert_ne by congruence.
Qed.

(** C9.  The four flags of the instance change nothing: with any two
    instances, each of the three operations gives the same outcome, the
    same dataset and the same log on the same arguments. *)
Theorem flags_have_no_effect (self1 self2 : t) e l
    (filename lon_varname lat_varname x_dim y_dim tag : string) nc :
  static self1 create_1d_coord e filename lon_varname lat_varname x_dim y_dim l
  = static self2 create_1d_coord e filename lon_varname lat_varname x_dim y_dim l
  /\ static self1 add_tag_to_filename e filename tag l
     = static self2 add_tag_to_filename e filename tag l
  /\ update_metadata self1 e nc l = update_metadata self2 e nc l.
Proof. repeat split. Qed.

End UpdateMetadata.

(** ** The job-script generator *)

Section JobscriptFacts.
Import Py Jobscript.
Implicit Types (a : args) (w : world).

(** The eight lines that are written before the rank count is computed. *)
Lemma body_header (account nodes tasks : string) (rest : string) :
  (((((((EmptyString +:+ "#!/bin/bash " +:+ nl) +:+ "#PBS -A " +:+ account +:+ " " +:+ nl)
         +:+ "#PBS -N mksurfdata " +:+ nl) +:+ "#PBS -j oe " +:+ nl)
       +:+ "#PBS -q regular " +:+ nl) +:+ "#PBS -l walltime=30:00 " +:+ nl)
     +:+ "#PBS -l select=" +:+ nodes +:+ ":ncpus=36:mpiprocs=" +:+ tasks +:+ " " +:+ nl)
    +:+ rest
  = "#!/bin/bash " +:+ nl
    +:+ "#PBS -A " +:+ account +:+ " " +:+ nl
    +:+ "#PBS -N mksurfdata " +:+ nl
    +:+ "#PBS -j oe " +:+ nl
    +:+ "#PBS -q regular " +:+ nl
    +:+ "#PBS -l walltime=30:00 " +:+ nl
    +:+ "#PBS -l select=" +:+ nodes +:+ ":ncpus=36:mpiprocs=" +:+ tasks +:+ " " +:+ nl
    +:+ rest.
Proof. rewrite !append_assoc. now rewrite append_nil. Qed.

(** The steps of [main], one at a time. *)
Lemma bind_write {A} (runfile text : string) (k : unit -> M world A) w :
  bind (write runfile text) k w
  = k tt {| files := files w;
            buffers := alter (fun pending => pending +:+ text) runfile (buffers w);
            can_open := can_open w;
            int_max_str_digits := int_max_str_digits w;
            stdout := stdout w |}.
Proof. reflexivity. Qed.

Lemma bind_py_int {A} (s : string) (k : Z -> M world A) w :
  bind (py_int s) k w
  = match int (int_max_str_digits w) s with
    | Some z => k z w
    | None => (Raised ValueError, w)
    end.
Proof. unfold bind, py_int. now destruct (int (int_max_str_digits w) s). Qed.

Lemma bind_py_str {A} (n : Z) (k : string -> M world A) w :
  bind (py_str n) k w
  = match str_of_int (int_max_str_digits w) n with
    | Some t => k t w
    | None => (Raised ValueError, w)
    end.
Proof. unfold bind, py_str. now destruct (str_of_int (int_max_str_digits w) n). Qed.

Lemma with_open_run {A} (path : string) (body : string -> M world A) w :
  can_open w path = true ->
  with_open path body w
  = match body path {| files := <[path := EmptyString]> (files w);
                       buffers := <[path := EmptyString]> (buffers w);
                       can_open := can_open w;
                       int_max_str_digits := int_max_str_digits w;
                       stdout := stdout w |} with
    | (Aborted, w') => (Aborted, w')
    | (Unmodelled, w') => (Unmodelled, w')
    | (o, w') => (o, close path w')
    end.
Proof. intros Hopen. unfold with_open, bind, open_w. now rewrite Hopen. Qed.

(** How [main] runs once the output path can be opened: the header goes
    to the file, then the two conversions and the formatting of the rank
    count decide. *)
Lemma main_run a w :
  can_open w (jobscript_file a) = true ->
  main a w =
    let header :=
      "#!/bin/bash " +:+ nl
      +:+ "#PBS -A " +:+ account a +:+ " " +:+ nl
      +:+ "#PBS -N mksurfdata " +:+ nl
      +:+ "#PBS -j oe " +:+ nl
      +:+ "#PBS -q regular " +:+ nl
      +:+ "#PBS -l walltime=30:00 " +:+ nl
      +:+ "#PBS -l select=" +:+ number_of_nodes a +:+ ":ncpus=36:mpiprocs="
      +:+ tasks_per_node a +:+ " " +:+ nl in
    let failed :=
      (Raised ValueError,
       {| files := <[jobscript_file a := header +:+ nl]> (files w);
          buffers := delete (jobscript_file a) (buffers w);
          can_open := can_open w;
          int_max_str_digits := int_max_str_digits w;
          stdout := stdout w |}) in
    match int (int_max_str_digits w) (tasks_per_node a),
          int (int_max_str_digits w) (number_of_nodes a) with
    | Some t, Some n =>
        match str_of_int (int_max_str_digits w) (t * n) with
        | Some np_text =>
            (Exited 0,
             {| files := <[jobscript_file a :=
                             header +:+ nl
                             +:+ "mpiexec_mpt -p " +:+ dquote +:+ "%g:" +:+ dquote
                             +:+ " -np " +:+ np_text +:+ " ./src/mksurfdata < "
                             +:+ namelist_file a +:+ " " +:+ nl]> (files w);
                buffers := delete (jobscript_file a) (buffers w);
                can_open := can_open w;
                int_max_str_digits := int_max_str_digits w;
                stdout := stdout w
                          ++ [("Successfully created jobscript " +:+ jobscript_file a)
                              +:+ nl] |})
        | None => failed
        end
    | _, _ => failed
    end.
Proof.
  intros Hopen.
  cbv [main with_open bind open_w]. rewrite Hopen.
  cbv [write modify py_int py_str or_raise ret raise print sys_exit].
  cbn [files buffers can_open int_max_str_digits stdout].
  rewrite !alter_insert_eq.
  destruct (int (int_max_str_digits w) (tasks_per_node a)) as [t|];
    cbn [files buffers can_open int_max_str_digits stdout];
    [destruct (int (int_max_str_digits w) (number_of_nodes a)) as [n|];
     cbn [files buffers can_open int_max_str_digits stdout];
     [destruct (str_of_int (int_max_str_digits w) (t * n)) as [np_text|];
      cbn [files buffers can_open int_max_str_digits stdout]|]|];
    unfold close; cbn [files buffers can_open int_max_str_digits stdout];
    rewrite ?alter_insert_eq, lookup_insert_eq;
    cbn [files buffers can_open int_max_str_digits stdout];
    rewrite alter_insert_eq, delete_insert_eq, append_nil, body_header;
    try rewrite body_header; rewrite ?append_assoc; reflexivity.
Qed.

End JobscriptFacts.

Section JobscriptClaims.
Import Py Jobscript.
Implicit Types (a : args) (w : world).

(** C2, as the code has it.  When the output path can be opened, the
    node count and the tasks-per-node count convert to the integers [n] and
    [t], and their product can be printed (it stays within the
    interpreter's limit on digits), [main] ends in [sys.exit(0)] after
    printing its confirmation, and the output file holds the shebang, the
    six [#PBS] lines, an empty line and the launch line, where every line
    but the empty one carries one space before its newline, the two counts
    appear in the selection line as they were typed, and the rank count is
    [n * t] in decimal.  For account [P1], 2 nodes, 4 tasks per node and
    namelist [nl.txt] the selection line is
    ["#PBS -l select=2:ncpus=36:mpiprocs=4 "] and the launch line is the
    expected one followed by a space. *)
Theorem main_writes_job_script a w (n t : Z) (np_text : string) :
  can_open w (jobscript_file a) = true ->
  int (int_max_str_digits w) (number_of_nodes a) = Some n ->
  int (int_max_str_digits w) (tasks_per_node a) = Some t ->
  str_of_int (int_max_str_digits w) (n * t) = Some np_text ->
  (exists w',
      main a w = (Exited 0, w')
      /\ np_text = decimal (n * t)
      /\ files w' =
           <[jobscript_file a :=
               "#!/bin/bash " +:+ nl
               +:+ "#PBS -A " +:+ account a +:+ " " +:+ nl
               +:+ "#PBS -N mksurfdata " +:+ nl
               +:+ "#PBS -j oe " +:+ nl
               +:+ "#PBS -q regular " +:+ nl
               +:+ "#PBS -l walltime=30:00 " +:+ nl
               +:+ "#PBS -l select=" +:+ number_of_nodes a +:+ ":ncpus=36:mpiprocs="
               +:+ tasks_per_node a +:+ " " +:+ nl
               +:+ nl
               +:+ "mpiexec_mpt -p " +:+ dquote +:+ "%g:" +:+ dquote +:+ " -np "
               +:+ np_text +:+ " ./src/mksurfdata < "
               +:+ namelist_file a +:+ " " +:+ nl]> (files w)
      /\ buffers w' !! jobscript_file a = None
      /\ stdout w' = stdout w ++ ["Successfully created jobscript "
                                  +:+ jobscript_file a +:+ nl])
  /\ (forall w0, can_open w0 "out.sh" = true ->
        split_lines <$> (files (main Examples.args0 w0).2 !! "out.sh")
        = Some [ "#!/bin/bash ";
                 "#PBS -A P1 ";
                 "#PBS -N mksurfdata ";
                 "#PBS -j oe ";
                 "#PBS -q regular ";
                 "#PBS -l walltime=30:00 ";
                 "#PBS -l select=2:ncpus=36:mpiprocs=4 ";
                 "";
                 "mpiexec_mpt -p " +:+ dquote +:+ "%g:" +:+ dquote
                   +:+ " -np 8 ./src/mksurfdata < nl.txt ";
                 "" ]).
Proof.
  intros Hopen Hn Ht Hnp. split.
  - rewrite (main_run a w Hopen). cbv zeta. rewrite Hn, Ht.
    rewrite (Z.mul_comm t n), Hnp.
    eexists. split; [reflexivity|]. cbn [files buffers stdout].
    split; [|split; [|split]].
    + unfold str_of_int in Hnp.
      destruct (over_limit _ _); [discriminate | now injection Hnp as <-].
    + now rewrite !append_assoc.
    + apply lookup_delete_eq.
    + now rewrite append_assoc.
  - intros w0 Hopen0. rewrite (main_run Examples.args0 w0 Hopen0).
    cbn [files snd]. cbv zeta.
    change (int (int_max_str_digits w0) (tasks_per_node Examples.args0)) with (Some 4).
    change (int (int_max_str_digits w0) (number_of_nodes Examples.args0)) with (Some 2).
    cbv beta iota.
    change (str_of_int (int_max_str_digits w0) (4 * 2)) with (Some "8"%string).
    cbn [files snd]. rewrite lookup_insert_eq. reflexivity.
Qed.

(** C10.  When the node count or the tasks-per-node count does not
    convert to an integer, [main] raises [ValueError] after the eight
    header lines were written: the output file has been created (or
    emptied) and is left holding the shebang, the six [#PBS] lines and the
    empty line, without a launch line; nothing is printed. *)
Theorem main_non_numeric_leaves_header a w :
  can_open w (jobscript_file a) = true ->
  int (int_max_str_digits w) (number_of_nodes a) = None
  \/ int (int_max_str_digits w) (tasks_per_node a) = None ->
  exists w',
    main a w = (Raised ValueError, w')
    /\ files w' =
         <[jobscript_file a :=
             "#!/bin/bash " +:+ nl
             +:+ "#PBS -A " +:+ account a +:+ " " +:+ nl
             +:+ "#PBS -N mksurfdata " +:+ nl
             +:+ "#PBS -j oe " +:+ nl
             +:+ "#PBS -q regular " +:+ nl
             +:+ "#PBS -l walltime=30:00 " +:+ nl
             +:+ "#PBS -l select=" +:+ number_of_nodes a +:+ ":ncpus=36:mpiprocs="
             +:+ tasks_per_node a +:+ " " +:+ nl
             +:+ nl]> (files w)
    /\ buffers w' !! jobscript_file a = None
    /\ stdout w' = stdout w.
Proof.
  intros Hopen Hbad. rewrite (main_run a w Hopen). cbv zeta.
  assert (Hrun : match int (int_max_str_digits w) (tasks_per_node a),
                       int (int_max_str_digits w) (number_of_nodes a) with
                 | Some _, Some _ => False
                 | _, _ => True
                 end).
  { destruct Hbad as [-> | ->];
      [now destruct (int (int_max_str_digits w) (tasks_per_node a))|exact I]. }
  destruct (int (int_max_str_digits w) (tasks_per_node a)) as [t|];
    [destruct (int (int_max_str_digits w) (number_of_nodes a)) as [n|]|];
    try contradiction;
    (eexists; split; [reflexivity|]; cbn [files buffers stdout];
     split; [now rewrite !append_assoc | split; [apply lookup_delete_eq | reflexivity]]).
Qed.

End JobscriptClaims.

Lemma main_writes_job_script_witness :
  exists w',
    Jobscript.main Examples.args0 Examples.world0 = (Py.Exited 0, w')
    /\ Jobscript.stdout w' = ["Successfully created jobscript out.sh" +:+ Jobscript.nl].
Proof.
  destruct (main_writes_job_script Examples.args0 Examples.world0 2 4 "8")
    as [(w' & Hrun & _ & _ & _ & Hout) _]; try reflexivity.
  exists w'. split; [exact Hrun | exact Hout].
Defined.

Lemma main_non_numeric_leaves_header_witness :
  exists w',
    Jobscript.main Examples.args_bad Examples.world0 = (Py.Raised Py.ValueError, w')
    /\ Jobscript.stdout w' = [].
Proof.
  destruct (main_non_numeric_leaves_header Examples.args_bad Examples.world0)
    as (w' & Hrun & _ & _ & Hout).
  - reflexivity.
  - left. reflexivity.
  - exists w'. split; [exact Hrun | exact Hout].
Defined.

(** C2 as stated does not hold: for account [P1], 2 nodes, 4 tasks per node
    and namelist [nl.txt] the file that [main] writes is not the text of the
    format block; its selection line and its launch line end in a space and
    so differ from the lines the claim quotes. *)
Lemma main_text_is_not_the_spec_format :
  let written := Jobscript.files (Jobscript.main Examples.args0 Examples.world0).2 !! "out.sh" in
  (Jobscript.main Examples.args0 Examples.world0).1 = Py.Exited 0
  /\ written <> Some (Jobscript.spec_text "P1" 2 4 "nl.txt")
  /\ (Jobscript.split_lines <$> written) ≫= (fun ls => ls !! 6%nat)
     = Some "#PBS -l select=2:ncpus=36:mpiprocs=4 "
  /\ (Jobscript.split_lines <$> written) ≫= (fun ls => ls !! 6%nat)
     <> Some "#PBS -l select=2:ncpus=36:mpiprocs=4"
  /\ (Jobscript.split_lines <$> written) ≫= (fun ls => ls !! 8%nat)
     <> Some ("mpiexec_mpt -p " +:+ Jobscript.dquote +:+ "%g:" +:+ Jobscript.dquote
              +:+ " -np 8 ./src/mksurfdata < nl.txt").
Proof.
  cbv zeta. rewrite (main_run Examples.args0 Examples.world0 eq_refl). cbv zeta.
  change (Py.int _ (Jobscript.tasks_per_node Examples.args0)) with (Some 4).
  change (Py.int _ (Jobscript.number_of_nodes Examples.args0)) with (Some 2).
  cbv beta iota.
  change (Py.str_of_int _ (4 * 2)) with (Some "8"%string).
  cbn [Jobscript.files fst snd]. rewrite lookup_insert_eq.
  repeat split; try discriminate.
Qed.

(** ** Arrays: the first row and the first column *)

Section NdarrayFacts.
Import Np.
Context {elt : Type}.
Implicit Types (a r c : ndarray elt).

(** [a[0, :]] of a two-dimensional array with at least one row is
    one-dimensional and holds [a[0, j]] at [j]. *)
Lemma row0_2d a (ny nx : nat) :
  shape a = [ny; nx] -> well_shaped a -> (0 < ny)%nat ->
  exists r, row0 a = Some r
            /\ shape r = [nx]
            /\ forall j, (j < nx)%nat ->
                 exists x, item1 r j = Some x /\ item2 a 0 j = Some x.
Proof.
  intros Hsh Hwf Hny. unfold row0. rewrite Hsh.
  destruct (Nat.eqb_spec ny 0) as [->|_]; [lia|].
  eexists. split; [reflexivity|]. split; [reflexivity|].
  intros j Hj. unfold item1, item2. cbn [shape flat]. rewrite Hsh.
  destruct (Nat.ltb_spec j nx) as [_|]; [|lia].
  destruct (Nat.ltb_spec 0 ny) as [_|]; [|lia].
  cbn [andb size_of fold_right]. rewrite Nat.mul_1_r.
  unfold well_shaped in Hwf. rewrite Hsh in Hwf. cbn [size_of fold_right] in Hwf.
  destruct (lookup_lt_is_Some_2 (flat a) j) as [x Hx]; [nia|].
  exists x. rewrite lookup_take_lt by lia. cbn [Nat.mul Nat.add]. now split.
Qed.

Lemma concat_singletons {A} (g : nat -> list A) (h : nat -> A) (l : list nat) :
  (forall i, i ∈ l -> g i = [h i]) ->
  concat (map g l) = map h l.
Proof.
  induction l as [|i l IH]; intros Hg; [reflexivity|].
  cbn [map concat]. rewrite (Hg i) by left.
  rewrite IH; [reflexivity|]. intros k Hk. apply Hg. now right.
Qed.

Lemma take_1_drop {A} (l : list A) (k : nat) (x : A) :
  l !! k = Some x -> take 1 (drop k l) = [x].
Proof.
  revert k. induction l as [|y l IH]; intros [|k] Hk; try discriminate.
  - now injection Hk as ->.
  - cbn [drop]. now apply IH.
Qed.

(** [a[:, 0]] of a two-dimensional array with at least one column is
    one-dimensional and holds [a[i, 0]] at [i]. *)
Lemma col0_2d a (ny nx : nat) :
  shape a = [ny; nx] -> well_shaped a -> (0 < nx)%nat ->
  exists c, col0 a = Some c
            /\ shape c = [ny]
            /\ forall i, (i < ny)%nat ->
                 exists x, item1 c i = Some x /\ item2 a i 0 = Some x.
Proof.
  intros Hsh Hwf Hnx. unfold col0. rewrite Hsh.
  destruct (Nat.eqb_spec nx 0) as [->|_]; [lia|].
  eexists. split; [reflexivity|]. split; [reflexivity|].
  intros i Hi. unfold item1, item2. cbn [shape flat]. rewrite Hsh.
  destruct (Nat.ltb_spec i ny) as [_|]; [|lia].
  destruct (Nat.ltb_spec 0 nx) as [_|]; [|lia].
  cbn [andb size_of fold_right]. rewrite Nat.mul_1_r, Nat.add_0_r.
  unfold well_shaped in Hwf. rewrite Hsh in Hwf. cbn [size_of fold_right] in Hwf.
  assert (Hin : forall k, (k < ny)%nat -> is_Some (flat a !! (k * nx)%nat)).
  { intros k Hk. apply lookup_lt_is_Some. nia. }
  destruct (Hin i Hi) as [x Hx]. exists x. split; [|exact Hx].
  rewrite (concat_singletons _ (fun k => default x (flat a !! (k * nx)%nat))).
  - rewrite list_lookup_fmap, lookup_seq_lt by lia. cbn. now rewrite Hx.
  - intros k Hk%elem_of_seq. destruct (Hin k) as [y Hy]; [lia|].
    rewrite Hy. now apply take_1_drop.
Qed.

End NdarrayFacts.

(** ** Datasets: dimension sizes and [assign] *)

Section XarrayFacts.
Import Py Np Xr.
Context {elt : Type}.
Implicit Types (ds : Dataset elt) (v : Var elt) (vars : gmap string (Var elt))
  (sizes acc : gmap string nat).

Lemma add_dims_fits vars sizes (dl : list string) (sh : list nat) acc :
  Forall2 (fun d n => sizes !! d = Some n) dl sh ->
  Forall (fun d => is_scalar_var vars d = false) dl ->
  acc ⊆ sizes ->
  exists acc', add_dims vars (zip dl sh) acc = Some acc' /\ acc' ⊆ sizes.
Proof.
  intros Hfit. revert acc.
  induction Hfit as [|d n dl sh Hd Hfit IH]; intros acc Hsc Hacc.
  - exists acc. split; [reflexivity | exact Hacc].
  - apply Forall_cons in Hsc as [Hsd Hsc]. cbn [zip zip_with add_dims]. rewrite Hsd.
    destruct (acc !! d) as [m|] eqn:Hm.
    + pose proof (lookup_weaken _ _ _ _ Hm Hacc) as Hm'.
      assert (m = n) as -> by congruence.
      rewrite bool_decide_eq_true_2 by reflexivity. now apply IH.
    + apply IH; [exact Hsc|]. now apply insert_subseteq_l.
Qed.

Lemma dims_of_list_fits vars sizes (l : list (string * Var elt)) acc :
  Forall (fun kv => var_fits sizes kv.2
                    /\ Forall (fun d => is_scalar_var vars d = false) (dims kv.2)) l ->
  acc ⊆ sizes ->
  exists acc', dims_of_list vars l acc = Some acc' /\ acc' ⊆ sizes.
Proof.
  intros Hl. revert acc.
  induction Hl as [|[k v] l [Hv Hs] Hl IH]; intros acc Hacc.
  - exists acc. split; [reflexivity | exact Hacc].
  - cbn [dims_of_list]. cbn [snd] in Hv, Hs.
    destruct (add_dims_fits vars sizes _ _ acc Hv Hs Hacc) as (acc' & -> & Hacc').
    now apply IH.
Qed.

(** Variables that agree with [sizes], none of them over a dimension that
    names a scalar variable, have dimension sizes, and these are among
    [sizes]. *)
Lemma calculate_dimensions_fits vars sizes :
  map_Forall (fun _ v => var_fits sizes v) vars ->
  (forall d, d ∈ dom sizes -> is_scalar_var vars d = false) ->
  exists sizes', calculate_dimensions vars = Some sizes' /\ sizes' ⊆ sizes.
Proof.
  intros Hfit Hsc. unfold calculate_dimensions.
  apply dims_of_list_fits; [|apply map_empty_subseteq].
  apply Forall_forall. intros [k v] Hkv%elem_of_map_to_list.
  cbn [snd]. pose proof (Hfit k v Hkv) as Hv. split; [exact Hv|].
  apply Forall_forall. intros d Hd. apply Hsc.
  unfold var_fits in Hv.
  destruct (proj1 (list_elem_of_lookup _ _) Hd) as [i Hi].
  destruct (Forall2_lookup_l _ _ _ _ _ Hv Hi) as (n & _ & Hn).
  apply elem_of_dom. now exists n.
Qed.

Lemma add_dims_covers vars (l : list (string * nat)) acc acc' :
  add_dims vars l acc = Some acc' ->
  acc ⊆ acc' /\ Forall (fun dn => acc' !! dn.1 = Some dn.2) l.
Proof.
  revert acc. induction l as [|[d n] l IH]; intros acc Hrun; cbn [add_dims] in Hrun.
  - injection Hrun as <-. split; [reflexivity | constructor].
  - destruct (is_scalar_var vars d); [discriminate|].
    destruct (acc !! d) as [m|] eqn:Hm.
    + case_bool_decide as Hmn; [subst m | discriminate].
      destruct (IH _ Hrun) as [Hsub Hall]. split; [exact Hsub|].
      constructor; [|exact Hall]. cbn [fst snd].
      exact (lookup_weaken _ _ _ _ Hm Hsub).
    + destruct (IH _ Hrun) as [Hsub Hall]. split.
      * etrans; [|exact Hsub]. now apply insert_subseteq.
      * constructor; [|exact Hall]. cbn [fst snd].
        apply (lookup_weaken _ _ _ _ (lookup_insert_eq acc d n) Hsub).
Qed.

Lemma dims_of_list_covers vars (l : list (string * Var elt)) acc acc' :
  dims_of_list vars l acc = Some acc' ->
  acc ⊆ acc'
  /\ Forall (fun kv => Forall (fun dn => acc' !! dn.1 = Some dn.2)
                         (zip (dims kv.2) (shape (values kv.2)))) l.
Proof.
  revert acc. induction l as [|[k v] l IH]; intros acc Hrun; cbn [dims_of_list] in Hrun.
  - injection Hrun as <-. split; [reflexivity | constructor].
  - destruct (add_dims vars _ acc) as [acc1|] eqn:Hadd; [|discriminate].
    destruct (add_dims_covers _ _ _ _ Hadd) as [Hsub1 Hall1].
    destruct (IH _ Hrun) as [Hsub Hall]. split; [etrans; [exact Hsub1 | exact Hsub]|].
    constructor; [|exact Hall]. cbn [snd].
    eapply Forall_impl; [exact Hall1|]. intros dn Hdn.
    exact (lookup_weaken _ _ _ _ Hdn Hsub).
Qed.

(** The sizes that [calculate_dimensions] returns cover the dimensions of
    every variable. *)
Lemma calculate_dimensions_covers vars sizes k v d n :
  calculate_dimensions vars = Some sizes ->
  vars !! k = Some v ->
  (d, n) ∈ zip (dims v) (shape (values v)) ->
  sizes !! d = Some n.
Proof.
  unfold calculate_dimensions. intros Hrun Hk Hd.
  destruct (dims_of_list_covers _ _ _ _ Hrun) as [_ Hall].
  rewrite Forall_forall in Hall.
  specialize (Hall (k, v) (proj2 (elem_of_map_to_list _ _ _) Hk)). cbn [snd] in Hall.
  rewrite Forall_forall in Hall. exact (Hall _ Hd).
Qed.

End XarrayFacts.

Section AssignAxes.
Import Py Np Xr.
Context {elt : Type}.
Implicit Types (ds : Dataset elt) (sizes : gmap string nat).

Lemma new_DataArray_axis (data : ndarray elt) (nm dim : string) (n : nat) :
  shape data = [n] ->
  new_DataArray data nm dim [(dim, data)]
  = Returned {| name := nm;
                variable := {| dims := [dim]; values := data |};
                coords := [(dim, {| dims := [dim]; values := data |})] |}.
Proof.
  intros Hsh. unfold new_DataArray. rewrite Hsh.
  cbn [forallb fst snd map]. rewrite String.eqb_refl, Hsh.
  now rewrite bool_decide_eq_true_2.
Qed.

(** [assign] with names that come in once and are not coordinates yet,
    when the merged variables have consistent sizes and no name ends up
    both a coordinate and a data variable. *)
Lemma assign_new ds (new : list (string * DataArray elt))
    (merged : gmap string (Var elt)) sizes :
  NoDup (map fst (flat_map entries new)) ->
  Forall (fun k => k ∉ coord_names ds) (map fst (flat_map entries new)) ->
  foldr (fun (kv : string * Var elt) m => <[kv.1 := kv.2]> m) (variables ds)
        (flat_map entries new) = merged ->
  calculate_dimensions merged = Some sizes ->
  (coord_names ds ∪ list_to_set (map fst (flat_map other_coords new))
     ∪ (dom sizes ∩ dom merged))
    ∩ (dom (variables ds) ∖ coord_names ds) = ∅ ->
  assign ds new
  = Returned {| variables := merged;
                coord_names :=
                  (coord_names ds ∪ list_to_set (map fst (flat_map other_coords new))
                     ∪ (dom sizes ∩ dom merged)) ∩ dom merged;
                attrs := attrs ds |}.
Proof.
  intros Hnd Hnew Hm Hcd Hok. unfold assign.
  rewrite (bool_decide_eq_true_2 _ Hnd). cbn [negb orb].
  replace (existsb _ _) with false.
  2:{ symmetry. apply not_true_is_false. intros (k & Hk & Hin)%existsb_exists.
      apply bool_decide_eq_true_1 in Hin. rewrite Forall_forall in Hnew.
      apply (Hnew k); [|exact Hin]. now apply list_elem_of_In. }
  rewrite Hm, Hcd. now rewrite (bool_decide_eq_true_2 _ Hok).
Qed.

(** Assigning the two axes to a dataset in which [lon] and [lat] are new
    names and the dimensions [x_dim] and [y_dim] have no variable: [lon]
    and [lat] come in as variables, the dimensions [x_dim] and [y_dim] as
    variables and as coordinates.  Where [x_dim] is called [lon] (or
    [y_dim] is called [lat]) the two insertions are one. *)
Lemma assign_axes ds sizes (lon0 lat0 : ndarray elt) (x_dim y_dim : string) (nx ny : nat) :
  well_formed ds sizes ->
  shape lon0 = [nx] -> shape lat0 = [ny] ->
  sizes !! x_dim = Some nx -> sizes !! y_dim = Some ny ->
  x_dim <> y_dim ->
  "lon" ∉ dom (variables ds) -> ("lon" ∈ dom sizes -> x_dim = "lon") ->
  "lat" ∉ dom (variables ds) -> ("lat" ∈ dom sizes -> y_dim = "lat") ->
  x_dim ∉ dom (variables ds) -> y_dim ∉ dom (variables ds) ->
  let vlon := {| dims := [x_dim]; values := lon0 |} in
  let vlat := {| dims := [y_dim]; values := lat0 |} in
  assign ds [("lon", {| name := "lon"; variable := vlon; coords := [(x_dim, vlon)] |});
             ("lat", {| name := "lat"; variable := vlat; coords := [(y_dim, vlat)] |})]
  = Returned {| variables := <["lon" := vlon]> (<[x_dim := vlon]>
                               (<["lat" := vlat]> (<[y_dim := vlat]> (variables ds))));
                coord_names := coord_names ds ∪ {[ x_dim; y_dim ]};
                attrs := attrs ds |}.
Proof.
  intros [Hfit Hshp Hsc Hco Hdc] Hlon Hlat Hx Hy Hxy Hlv Hls Hav Has Hxv Hyv vlon vlat.
  assert (Hxs : x_dim ∈ dom sizes) by (apply elem_of_dom; eauto).
  assert (Hys : y_dim ∈ dom sizes) by (apply elem_of_dom; eauto).
  assert (Hxlat : x_dim <> "lat").
  { intros E. apply Hxy. rewrite E. symmetry. apply Has. now rewrite <- E. }
  assert (Hylon : y_dim <> "lon").
  { intros E. apply Hxy. rewrite E. apply Hls. now rewrite <- E. }
  set (merged := <["lon" := vlon]> (<[x_dim := vlon]>
                   (<["lat" := vlat]> (<[y_dim := vlat]> (variables ds))))).
  assert (Hdom : dom merged = {[ "lon"; x_dim; "lat"; y_dim ]} ∪ dom (variables ds)).
  { unfold merged. rewrite !dom_insert_L. clear. set_solver. }
  destruct (calculate_dimensions_fits merged sizes) as (sizes' & Hcd & Hsub).
  { assert (Hvlon : var_fits sizes vlon).
    { unfold var_fits, vlon. cbn [dims values]. rewrite Hlon.
      constructor; [exact Hx | constructor]. }
    assert (Hvlat : var_fits sizes vlat).
    { unfold var_fits, vlat. cbn [dims values]. rewrite Hlat.
      constructor; [exact Hy | constructor]. }
    unfold merged. repeat apply map_Forall_insert_2; assumption. }
  { intros d Hd. specialize (Hsc d Hd). unfold is_scalar_var in *. unfold merged.
    rewrite !lookup_insert. repeat case_decide; try reflexivity. exact Hsc. }
  assert (Hxs' : x_dim ∈ dom sizes').
  { apply elem_of_dom. exists nx.
    apply (calculate_dimensions_covers merged sizes' "lon" vlon); [exact Hcd | |].
    - unfold merged. apply lookup_insert_eq.
    - unfold vlon. cbn [dims values]. rewrite Hlon. apply list_elem_of_here. }
  assert (Hys' : y_dim ∈ dom sizes').
  { apply elem_of_dom. exists ny.
    apply (calculate_dimensions_covers merged sizes' "lat" vlat); [exact Hcd | |].
    - unfold merged. rewrite lookup_insert_ne by discriminate.
      rewrite lookup_insert_ne by congruence. apply lookup_insert_eq.
    - unfold vlat. cbn [dims values]. rewrite Hlat. apply list_elem_of_here. }
  apply subseteq_dom in Hsub.
  assert (Hlon_dim : "lon" ∈ dom sizes' -> "lon" ∈ ({[ x_dim; y_dim ]} : gset string)).
  { intros Hd. rewrite <- (Hls (Hsub _ Hd)). clear. set_solver. }
  assert (Hlat_dim : "lat" ∈ dom sizes' -> "lat" ∈ ({[ x_dim; y_dim ]} : gset string)).
  { intros Hd. rewrite <- (Has (Hsub _ Hd)). clear. set_solver. }
  assert (Hdims : dom sizes' ∩ dom merged ⊆ coord_names ds ∪ {[ x_dim; y_dim ]}).
  { rewrite Hdom. intros d [Hd1 Hd2]%elem_of_intersection.
    apply elem_of_union in Hd2 as [Hd2|Hd2].
    - apply elem_of_union_r.
      repeat (apply elem_of_union in Hd2 as [Hd2|Hd2]);
        apply elem_of_singleton in Hd2; subst d;
        auto; clear; set_solver.
    - apply elem_of_union_l. apply Hdc; [now apply Hsub | exact Hd2]. }
  assert (Hnew : {[ x_dim; y_dim ]} ⊆ dom merged).
  { rewrite Hdom. clear. set_solver. }
  assert (Hold : dom (variables ds) ⊆ dom merged).
  { rewrite Hdom. clear. set_solver. }
  assert (Hfree : ({[ x_dim; y_dim ]} : gset string) ## dom (variables ds)).
  { clear -Hxv Hyv. set_solver. }
  assert (Hcn : forall extra : gset string,
             extra ⊆ {[ x_dim; y_dim ]} ->
             (coord_names ds ∪ extra ∪ (dom sizes' ∩ dom merged)) ∩ dom merged
             = coord_names ds ∪ {[ x_dim; y_dim ]}).
  { intros extra Hex. clear -Hex Hdims Hnew Hold Hco Hxs' Hys'. set_solver. }
  assert (Hok : forall extra : gset string,
             extra ⊆ {[ x_dim; y_dim ]} ->
             (coord_names ds ∪ extra ∪ (dom sizes' ∩ dom merged))
               ∩ (dom (variables ds) ∖ coord_names ds) = ∅).
  { intros extra Hex. clear -Hex Hdims Hfree Hco. set_solver. }
  assert (Hnc : forall k, k ∉ dom (variables ds) -> k ∉ coord_names ds).
  { intros k Hk Hin. apply Hk, Hco, Hin. }
  destruct (decide (x_dim = "lon")) as [Ex|Ex];
    destruct (decide (y_dim = "lat")) as [Ey|Ey];
    (erewrite (assign_new ds _ merged sizes');
     [ f_equal; f_equal; apply Hcn
     | | | | exact Hcd | apply Hok ]);
    cbn [flat_map entries other_coords coords variable fst snd List.filter app map];
    rewrite ?(proj2 (String.eqb_eq x_dim "lon") Ex),
            ?(proj2 (String.eqb_neq x_dim "lon") Ex),
            ?(proj2 (String.eqb_eq y_dim "lat") Ey),
            ?(proj2 (String.eqb_neq y_dim "lat") Ey);
    cbn [negb app map fst snd foldr list_to_set].
  all: try (clear; set_solver).
  all: try (repeat (apply NoDup_cons; split); try apply NoDup_nil_2;
            rewrite ?elem_of_cons, elem_of_nil; intuition congruence).
  all: try (repeat (apply Forall_cons; split); try apply Forall_nil_2;
            apply Hnc; assumption).
  - unfold merged. rewrite Ex, Ey. now rewrite !insert_insert_eq.
  - unfold merged. rewrite Ex. now rewrite insert_insert_eq.
  - unfold merged. rewrite Ey. now rewrite insert_insert_eq.
Qed.
End AssignAxes.

(** ** [create_1d_coord] *)

Section Create1dCoord.
Import Py Np Xr BaseCase.
Context {elt : Type}.
Implicit Types (e : env elt) (l : log) (f_in f_out : Dataset elt).

(** The shape of a two-dimensional field follows from the sizes of its
    dimensions. *)
Lemma fits_2d (sizes : gmap string nat) (v : Var elt) (y_dim x_dim : string) (ny nx : nat) :
  var_fits sizes v -> dims v = [y_dim; x_dim] ->
  sizes !! y_dim = Some ny -> sizes !! x_dim = Some nx ->
  shape (values v) = [ny; nx].
Proof.
  unfold var_fits. intros Hfit Hd Hy Hx. rewrite Hd in Hfit.
  inversion Hfit as [|? a ? sh1 Ha Hfit1]; subst.
  inversion Hfit1 as [|? b ? sh2 Hb Hfit2]; subst.
  inversion Hfit2; subst. congruence.
Qed.

(** How [create_1d_coord] runs on a grid file: which dataset it returns. *)
Lemma create_1d_coord_run e l (filename lon_varname lat_varname x_dim y_dim : string)
    f_in (sizes : gmap string nat) (lon2d lat2d : Var elt) (ny nx : nat) :
  disk e !! filename = Some f_in ->
  grid_file f_in sizes lon_varname lat_varname x_dim y_dim lon2d lat2d ny nx ->
  exists lon0 lat0,
    row0 (values lon2d) = Some lon0
    /\ col0 (values lat2d) = Some lat0
    /\ shape lon0 = [nx] /\ shape lat0 = [ny]
    /\ (forall j, (j < nx)%nat ->
          exists x, item1 lon0 j = Some x /\ item2 (values lon2d) 0 j = Some x)
    /\ (forall i, (i < ny)%nat ->
          exists x, item1 lat0 i = Some x /\ item2 (values lat2d) i 0 = Some x)
    /\ create_1d_coord e filename lon_varname lat_varname x_dim y_dim l
       = (Returned
            {| variables :=
                 <["lon" := {| dims := [x_dim]; values := lon0 |}]>
                   (<[x_dim := {| dims := [x_dim]; values := lon0 |}]>
                      (<["lat" := {| dims := [y_dim]; values := lat0 |}]>
                         (<[y_dim := {| dims := [y_dim]; values := lat0 |}]>
                            (variables f_in))));
               coord_names := coord_names f_in ∪ {[ x_dim; y_dim ]};
               attrs := attrs f_in |},
          l ++ [(DEBUG, "Open file: " +:+ filename)]).
Proof.
  intros Hdisk [Hwf Hlon Hlond Hlat Hlatd Hny Hnx Hrow Hcol Hxy Hxf Hyf [Hl1 Hl2] [Ha1 Ha2]].
  pose proof (wf_fits _ _ Hwf _ _ Hlon) as Hfl. cbn beta in Hfl.
  pose proof (wf_fits _ _ Hwf _ _ Hlat) as Hfa. cbn beta in Hfa.
  pose proof (wf_shaped _ _ Hwf _ _ Hlat) as Hsa. cbn beta in Hsa.
  pose proof (wf_shaped _ _ Hwf _ _ Hlon) as Hsl. cbn beta in Hsl.
  pose proof (fits_2d _ _ _ _ _ _ Hfl Hlond Hny Hnx) as Hshl.
  pose proof (fits_2d _ _ _ _ _ _ Hfa Hlatd Hny Hnx) as Hsha.
  destruct (row0_2d (values lon2d) ny nx Hshl Hsl Hrow) as (lon0 & Hr & Hrs & Hri).
  destruct (col0_2d (values lat2d) ny nx Hsha Hsa Hcol) as (lat0 & Hc & Hcs & Hci).
  exists lon0, lat0. repeat (split; [assumption|]).
  unfold create_1d_coord, open_dataset, Xr.getitem.
  unfold bind at 1. unfold logging_debug, modify.
  unfold bind at 1. rewrite Hdisk. unfold or_raise at 1, ret at 1.
  unfold bind at 1. rewrite Hlon. unfold lift at 1.
  unfold bind at 1. cbn [item_row0]. rewrite Hr. unfold or_raise at 1, ret at 1.
  unfold bind at 1. rewrite Hlat. unfold lift at 1.
  unfold bind at 1. cbn [item_col0]. rewrite Hc. unfold or_raise at 1, ret at 1.
  unfold bind at 1. rewrite (new_DataArray_axis lon0 "lon" x_dim nx Hrs). unfold lift at 1.
  unfold bind at 1. rewrite (new_DataArray_axis lat0 "lat" y_dim ny Hcs). unfold lift at 1.
  unfold bind at 1.
  rewrite (assign_axes f_in sizes lon0 lat0 x_dim y_dim nx ny) by assumption.
  unfold lift at 1. unfold bind at 1.
  unfold reset_coords, is_index. cbn [variables existsb forallb].
  assert (Hin : forall k v, variables f_in !! k = Some v ->
                  k <> "lon" /\ k <> x_dim /\ k <> "lat" /\ k <> y_dim).
  { intros k v Hk. assert (k ∈ dom (variables f_in)) by (apply elem_of_dom; eauto).
    repeat split; intros ->; contradiction. }
  destruct (Hin _ _ Hlon) as (? & ? & ? & ?). destruct (Hin _ _ Hlat) as (? & ? & ? & ?).
  rewrite !dom_insert_L.
  rewrite (bool_decide_eq_true_2 (lon_varname ∈ _)).
  2:{ repeat apply elem_of_union_r. apply elem_of_dom. eauto. }
  rewrite (bool_decide_eq_true_2 (lat_varname ∈ _)).
  2:{ repeat apply elem_of_union_r. apply elem_of_dom. eauto. }
  rewrite !lookup_insert_ne by congruence. rewrite Hlon, Hlat, Hlond, Hlatd.
  rewrite !bool_decide_eq_false_2 by discriminate.
  reflexivity.
Qed.

End Create1dCoord.

Section Create1dCoordClaims.
Import Py Np Xr BaseCase.
Context {elt : Type}.
Implicit Types (e : env elt) (l : log) (f_in f_out : Dataset elt).

(** C4, as the code has it.  On a grid file, [create_1d_coord] returns a
    dataset with a new one-dimensional variable [lon] along [x_dim] that
    holds the first row of the two-dimensional longitude field, and a new
    one-dimensional variable [lat] along [y_dim] that holds the first
    column of the two-dimensional latitude field.  The coordinates that
    the call adds, with the same values, are named after the dimensions,
    [x_dim] and [y_dim]: [lon] is a coordinate exactly when [x_dim] is
    called [lon], and [lat] exactly when [y_dim] is called [lat];
    otherwise the two are data variables. *)
Theorem create_1d_coord_axes e l (filename lon_varname lat_varname x_dim y_dim : string)
    f_in (sizes : gmap string nat) (lon2d lat2d : Var elt) (ny nx : nat) :
  disk e !! filename = Some f_in ->
  grid_file f_in sizes lon_varname lat_varname x_dim y_dim lon2d lat2d ny nx ->
  exists f_out (lon lat : Var elt),
    create_1d_coord e filename lon_varname lat_varname x_dim y_dim l
    = (Returned f_out, l ++ [(DEBUG, "Open file: " +:+ filename)])
    /\ variables f_out !! "lon" = Some lon
    /\ dims lon = [x_dim] /\ shape (values lon) = [nx]
    /\ (forall j, (j < nx)%nat ->
          exists x, item1 (values lon) j = Some x
                    /\ item2 (values lon2d) 0 j = Some x)
    /\ variables f_out !! "lat" = Some lat
    /\ dims lat = [y_dim] /\ shape (values lat) = [ny]
    /\ (forall i, (i < ny)%nat ->
          exists x, item1 (values lat) i = Some x
                    /\ item2 (values lat2d) i 0 = Some x)
    /\ variables f_out !! x_dim = Some lon
    /\ variables f_out !! y_dim = Some lat
    /\ (x_dim ∈ coord_names f_out) /\ (y_dim ∈ coord_names f_out)
    /\ ("lon" ∈ coord_names f_out <-> x_dim = "lon")
    /\ ("lat" ∈ coord_names f_out <-> y_dim = "lat").
Proof.
  intros Hdisk Hgf.
  destruct (create_1d_coord_run e l filename lon_varname lat_varname x_dim y_dim
              f_in sizes lon2d lat2d ny nx Hdisk Hgf)
    as (lon0 & lat0 & _ & _ & Hrs & Hcs & Hri & Hci & Hrun).
  destruct Hgf as [Hwf _ _ _ _ Hny Hnx _ _ Hxy Hxf Hyf [Hl1 Hl2] [Ha1 Ha2]].
  assert (Hxs : x_dim ∈ dom sizes) by (apply elem_of_dom; eauto).
  assert (Hys : y_dim ∈ dom sizes) by (apply elem_of_dom; eauto).
  assert (Hxlat : x_dim <> "lat").
  { intros E. apply Hxy. rewrite E. symmetry. apply Ha2. now rewrite <- E. }
  assert (Hylon : y_dim <> "lon").
  { intros E. apply Hxy. rewrite E. apply Hl2. now rewrite <- E. }
  pose proof (wf_coords _ _ Hwf) as Hco.
  eexists _, {| dims := [x_dim]; values := lon0 |}, {| dims := [y_dim]; values := lat0 |}.
  split; [exact Hrun|]. cbn [variables coord_names dims values].
  split; [apply lookup_insert_eq|].
  split; [reflexivity|]. split; [exact Hrs|]. split; [exact Hri|].
  split; [rewrite !lookup_insert_ne by congruence; apply lookup_insert_eq|].
  split; [reflexivity|]. split; [exact Hcs|]. split; [exact Hci|].
  split; [rewrite !lookup_insert; repeat case_decide; congruence|].
  split; [rewrite !lookup_insert; repeat case_decide; congruence|].
  split; [apply elem_of_union_r, elem_of_union_l, elem_of_singleton; reflexivity|].
  split; [apply elem_of_union_r, elem_of_union_r, elem_of_singleton; reflexivity|].
  split; (split;
    [ intros [Hin | [Hin | Hin]%elem_of_union]%elem_of_union;
      [ apply Hco in Hin; contradiction
      | apply elem_of_singleton in Hin; congruence
      | apply elem_of_singleton in Hin; congruence ]
    | intros ->; clear; set_solver ]).
Qed.

(** C3, what the code does instead.  On a grid file in which the two
    two-dimensional fields are coordinates, they are still coordinates of
    the dataset that [create_1d_coord] returns, and they are still there
    with their values.  The dataset in which they are data variables is
    the one that [reset_coords] returns, and that one is dropped. *)
Theorem create_1d_coord_does_not_demote e l
    (filename lon_varname lat_varname x_dim y_dim : string)
    f_in (sizes : gmap string nat) (lon2d lat2d : Var elt) (ny nx : nat) :
  disk e !! filename = Some f_in ->
  grid_file f_in sizes lon_varname lat_varname x_dim y_dim lon2d lat2d ny nx ->
  lon_varname ∈ coord_names f_in ->
  lat_varname ∈ coord_names f_in ->
  exists f_out dropped,
    create_1d_coord e filename lon_varname lat_varname x_dim y_dim l
    = (Returned f_out, l ++ [(DEBUG, "Open file: " +:+ filename)])
    /\ (lon_varname ∈ coord_names f_out)
    /\ (lat_varname ∈ coord_names f_out)
    /\ variables f_out !! lon_varname = Some lon2d
    /\ variables f_out !! lat_varname = Some lat2d
    /\ reset_coords f_out [lon_varname; lat_varname] = Returned dropped
    /\ (lon_varname ∉ coord_names dropped)
    /\ (lat_varname ∉ coord_names dropped)
    /\ variables dropped = variables f_out.
Proof.
  intros Hdisk Hgf Hlc Hac.
  destruct (create_1d_coord_run e l filename lon_varname lat_varname x_dim y_dim
              f_in sizes lon2d lat2d ny nx Hdisk Hgf)
    as (lon0 & lat0 & _ & _ & _ & _ & _ & _ & Hrun).
  destruct Hgf as [Hwf Hlon Hlond Hlat Hlatd _ _ _ _ _ Hxf Hyf [Hl1 _] [Ha1 _]].
  assert (Hin : forall k v, variables f_in !! k = Some v ->
                  k <> "lon" /\ k <> x_dim /\ k <> "lat" /\ k <> y_dim).
  { intros k v Hk. assert (k ∈ dom (variables f_in)) by (apply elem_of_dom; eauto).
    repeat split; intros ->; contradiction. }
  destruct (Hin _ _ Hlon) as (? & ? & ? & ?). destruct (Hin _ _ Hlat) as (? & ? & ? & ?).
  eexists _, _. split; [exact Hrun|]. cbn [variables coord_names].
  split; [now apply elem_of_union_l|]. split; [now apply elem_of_union_l|].
  split; [now rewrite !lookup_insert_ne by congruence|].
  split; [now rewrite !lookup_insert_ne by congruence|].
  unfold reset_coords, is_index. cbn [variables coord_names attrs existsb forallb].
  rewrite !dom_insert_L.
  rewrite (bool_decide_eq_true_2 (lon_varname ∈ _)).
  2:{ repeat apply elem_of_union_r. apply elem_of_dom. eauto. }
  rewrite (bool_decide_eq_true_2 (lat_varname ∈ _)).
  2:{ repeat apply elem_of_union_r. apply elem_of_dom. eauto. }
  rewrite !lookup_insert_ne by congruence. rewrite Hlon, Hlat, Hlond, Hlatd.
  rewrite !bool_decide_eq_false_2 by discriminate.
  cbn [negb andb orb]. split; [reflexivity|]. cbn [variables coord_names].
  split; [|split; [|reflexivity]];
    intros [_ Hno]%elem_of_difference; apply Hno;
    rewrite elem_of_list_to_set, !elem_of_cons; auto.
Qed.

End Create1dCoordClaims.

(** The example domain file is a grid file for the call that CTSM makes on
    domain files. *)
Lemma domain_dataset_grid_file :
  BaseCase.grid_file Examples.domain_dataset Examples.sizes "xc" "yc" "ni" "nj"
    (Examples.grid [10; 20; 30; 10; 20; 30]) (Examples.grid [5; 5; 5; 6; 6; 6]) 2 3.
Proof.
  assert (Hdom : forall k, k ∈ dom (Xr.variables Examples.domain_dataset) ->
                   k = "xc" \/ k = "yc" \/ k = "mask").
  { intros k. unfold Examples.domain_dataset. cbn [Xr.variables].
    rewrite !dom_insert_L, dom_singleton_L, !elem_of_union, !elem_of_singleton. tauto. }
  assert (Hsz : forall d, d ∈ dom Examples.sizes -> d = "nj" \/ d = "ni").
  { intros d. unfold Examples.sizes.
    rewrite dom_insert_L, dom_singleton_L, elem_of_union, !elem_of_singleton. tauto. }
  assert (Hnot : forall k, k <> "xc" -> k <> "yc" -> k <> "mask" ->
                   k ∉ dom (Xr.variables Examples.domain_dataset)).
  { intros k ? ? ? Hk. destruct (Hdom k Hk) as [?|[?|?]]; contradiction. }
  assert (Hnos : forall d, d <> "nj" -> d <> "ni" -> d ∉ dom Examples.sizes).
  { intros d ? ? Hd. destruct (Hsz d Hd) as [?|?]; contradiction. }
  constructor.
  - constructor.
    + unfold Examples.domain_dataset. cbn [Xr.variables].
      apply map_Forall_insert_2; [|apply map_Forall_insert_2; [|apply map_Forall_singleton]];
        (constructor; [vm_compute; reflexivity
                      | constructor; [vm_compute; reflexivity | constructor]]).
    + unfold Examples.domain_dataset. cbn [Xr.variables].
      apply map_Forall_insert_2; [|apply map_Forall_insert_2; [|apply map_Forall_singleton]];
        reflexivity.
    + intros d Hd. destruct (Hsz d Hd) as [-> | ->]; vm_compute; reflexivity.
    + intros k Hk. unfold Examples.domain_dataset in *. cbn [Xr.variables Xr.coord_names] in *.
      rewrite !dom_insert_L, dom_singleton_L, !elem_of_union, !elem_of_singleton.
      rewrite elem_of_union, !elem_of_singleton in Hk. tauto.
    + intros d Hd Hv. exfalso.
      destruct (Hsz d Hd) as [-> | ->]; revert Hv; apply Hnot; discriminate.
  - vm_compute; reflexivity.
  - reflexivity.
  - vm_compute; reflexivity.
  - reflexivity.
  - vm_compute; reflexivity.
  - vm_compute; reflexivity.
  - lia.
  - lia.
  - discriminate.
  - apply Hnot; discriminate.
  - apply Hnot; discriminate.
  - split; [apply Hnot; discriminate|].
    intros Hd. exfalso. revert Hd. apply Hnos; discriminate.
  - split; [apply Hnot; discriminate|].
    intros Hd. exfalso. revert Hd. apply Hnos; discriminate.
Qed.

(** The example file with the dimensions [lat] and [lon] is a grid file for
    a call that names them. *)
Lemma lonlat_dataset_grid_file :
  BaseCase.grid_file Examples.lonlat_dataset Examples.lonlat_sizes
    "LONGXY" "LATIXY" "lon" "lat"
    (Examples.lonlat_field [10; 20; 30; 10; 20; 30])
    (Examples.lonlat_field [5; 5; 5; 6; 6; 6]) 2 3.
Proof.
  assert (Hdom : forall k, k ∈ dom (Xr.variables Examples.lonlat_dataset) ->
                   k = "LONGXY" \/ k = "LATIXY").
  { intros k. unfold Examples.lonlat_dataset. cbn [Xr.variables].
    rewrite !dom_insert_L, dom_singleton_L, !elem_of_union, !elem_of_singleton. tauto. }
  assert (Hsz : forall d, d ∈ dom Examples.lonlat_sizes -> d = "lat" \/ d = "lon").
  { intros d. unfold Examples.lonlat_sizes.
    rewrite dom_insert_L, dom_singleton_L, elem_of_union, !elem_of_singleton. tauto. }
  assert (Hnot : forall k, k <> "LONGXY" -> k <> "LATIXY" ->
                   k ∉ dom (Xr.variables Examples.lonlat_dataset)).
  { intros k ? ? Hk. destruct (Hdom k Hk) as [?|?]; contradiction. }
  constructor.
  - constructor.
    + unfold Examples.lonlat_dataset. cbn [Xr.variables].
      apply map_Forall_insert_2; [|apply map_Forall_singleton];
        (constructor; [vm_compute; reflexivity
                      | constructor; [vm_compute; reflexivity | constructor]]).
    + unfold Examples.lonlat_dataset. cbn [Xr.variables].
      apply map_Forall_insert_2; [|apply map_Forall_singleton]; reflexivity.
    + intros d Hd. destruct (Hsz d Hd) as [-> | ->]; vm_compute; reflexivity.
    + intros k Hk. unfold Examples.lonlat_dataset in Hk. cbn [Xr.coord_names] in Hk.
      now apply elem_of_empty in Hk.
    + intros d Hd Hv. exfalso.
      destruct (Hsz d Hd) as [-> | ->]; revert Hv; apply Hnot; discriminate.
  - vm_compute; reflexivity.
  - reflexivity.
  - vm_compute; reflexivity.
  - reflexivity.
  - vm_compute; reflexivity.
  - vm_compute; reflexivity.
  - lia.
  - lia.
  - discriminate.
  - apply Hnot; discriminate.
  - apply Hnot; discriminate.
  - split; [apply Hnot; discriminate | reflexivity].
  - split; [apply Hnot; discriminate | reflexivity].
Qed.

Lemma domain_file_on_disk :
  BaseCase.disk Examples.env0 !! "domain.nc" = Some Examples.domain_dataset.
Proof. vm_compute. reflexivity. Qed.

Lemma lonlat_file_on_disk :
  BaseCase.disk Examples.env_lonlat !! "surfdata.nc" = Some Examples.lonlat_dataset.
Proof. vm_compute. reflexivity. Qed.

Lemma create_1d_coord_axes_witness :
  exists f_out,
    BaseCase.create_1d_coord Examples.env_lonlat "surfdata.nc" "LONGXY" "LATIXY" "lon" "lat" []
    = (Py.Returned f_out, [(Py.DEBUG, "Open file: surfdata.nc")])
    /\ ("lon" ∈ Xr.coord_names f_out) /\ ("lat" ∈ Xr.coord_names f_out).
Proof.
  destruct (create_1d_coord_axes Examples.env_lonlat [] "surfdata.nc" "LONGXY" "LATIXY"
              "lon" "lat" Examples.lonlat_dataset Examples.lonlat_sizes _ _ 2 3
              lonlat_file_on_disk lonlat_dataset_grid_file)
    as (f_out & lon & lat & Hrun & _ & _ & _ & _ & _ & _ & _ & _ & _ & _ & _ & _ & Hlon & Hlat).
  exists f_out. split; [exact Hrun | split; [now apply Hlon | now apply Hlat]].
Defined.

Lemma create_1d_coord_does_not_demote_witness :
  exists f_out,
    BaseCase.create_1d_coord Examples.env0 "domain.nc" "xc" "yc" "ni" "nj" []
    = (Py.Returned f_out, [(Py.DEBUG, "Open file: domain.nc")])
    /\ ("xc" ∈ Xr.coord_names f_out) /\ ("yc" ∈ Xr.coord_names f_out).
Proof.
  destruct (create_1d_coord_does_not_demote Examples.env0 [] "domain.nc" "xc" "yc" "ni" "nj"
              Examples.domain_dataset Examples.sizes _ _ 2 3
              domain_file_on_disk domain_dataset_grid_file)
    as (f_out & dropped & Hrun & Hxc & Hyc & _).
  - unfold Examples.domain_dataset. cbn [Xr.coord_names].
    rewrite elem_of_union, !elem_of_singleton. now left.
  - unfold Examples.domain_dataset. cbn [Xr.coord_names].
    rewrite elem_of_union, !elem_of_singleton. now right.
  - exists f_out. split; [exact Hrun | split; [exact Hxc | exact Hyc]].
Defined.

(** C4 as stated does not hold: on the example domain file, with the call
    that CTSM makes on domain files, [lon] and [lat] are variables of the
    dataset returned but not coordinates of it; its coordinates are the two
    fields and the two dimensions. *)
Lemma create_1d_coord_lon_lat_are_not_coordinates :
  exists f_out,
    BaseCase.create_1d_coord Examples.env0 "domain.nc" "xc" "yc" "ni" "nj" []
    = (Py.Returned f_out, [(Py.DEBUG, "Open file: domain.nc")])
    /\ is_Some (Xr.variables f_out !! "lon")
    /\ is_Some (Xr.variables f_out !! "lat")
    /\ Xr.coord_names f_out = {[ "xc"; "yc" ]} ∪ {[ "ni"; "nj" ]}
    /\ ("lon" ∉ Xr.coord_names f_out)
    /\ ("lat" ∉ Xr.coord_names f_out).
Proof.
  destruct (create_1d_coord_run Examples.env0 [] "domain.nc" "xc" "yc" "ni" "nj"
              Examples.domain_dataset Examples.sizes _ _ 2 3
              domain_file_on_disk domain_dataset_grid_file)
    as (lon0 & lat0 & _ & _ & _ & _ & _ & _ & Hrun).
  eexists. split; [exact Hrun|]. cbn [Xr.variables Xr.coord_names].
  split; [rewrite lookup_insert_eq; eauto|].
  split; [rewrite lookup_insert_ne by discriminate;
          rewrite lookup_insert_ne by discriminate;
          rewrite lookup_insert_eq; eauto|].
  split; [reflexivity|].
  unfold Examples.domain_dataset. cbn [Xr.coord_names].
  split; rewrite !elem_of_union, !elem_of_singleton;
    intros [[H|H]|[H|H]]; discriminate H.
Qed.

(** ** More on [create_1d_coord]: failures, and what a successful call keeps *)

Section Create1dCoordMore.
Import Py Np Xr BaseCase.
Context {elt : Type}.
Implicit Types (e : env elt) (l : log) (f_in f_out : Dataset elt).

(** A path at which there is no file: [FileNotFoundError] leaves
    [xr.open_dataset], after the debug record of the attempt was logged. *)
Theorem create_1d_coord_missing_file e l
    (filename lon_varname lat_varname x_dim y_dim : string) :
  disk e !! filename = None ->
  create_1d_coord e filename lon_varname lat_varname x_dim y_dim l
  = (Raised FileNotFoundError, l ++ [(DEBUG, "Open file: " +:+ filename)]).
Proof.
  intros Hdisk. unfold create_1d_coord, open_dataset.
  unfold bind at 1. unfold logging_debug, modify.
  unfold bind at 1. now rewrite Hdisk.
Qed.

(** What [ds[k]] gives for a name that is not a variable of a dataset
    with dimension sizes [sizes]: the positions along [k] when [k] is a
    dimension, and [KeyError] when it is not and [k] has no dot or no
    variable is named by the part before its first dot. *)
Lemma getitem_bare_dim f_in (sizes : gmap string nat) (k : string) (n : nat) :
  calculate_dimensions (variables f_in) = Some sizes ->
  variables f_in !! k = None -> sizes !! k = Some n ->
  Xr.getitem f_in k = Returned (Positions k n).
Proof. intros Hcd Hk Hn. unfold Xr.getitem. now rewrite Hk, Hcd, Hn. Qed.

Lemma getitem_unknown f_in (sizes : gmap string nat) (k : string) :
  calculate_dimensions (variables f_in) = Some sizes ->
  variables f_in !! k = None -> sizes !! k = None ->
  (forall ref, before_dot k = Some ref -> variables f_in !! ref = None) ->
  Xr.getitem f_in k = Raised KeyError.
Proof.
  intros Hcd Hk Hn Hdot. unfold Xr.getitem. rewrite Hk, Hcd, Hn.
  destruct (before_dot k) as [ref|]; [|reflexivity].
  now rewrite (Hdot ref eq_refl).
Qed.

(** A file in which the longitude name is unknown (no variable and no
    dimension has it, and it does not refer to a variable by a dotted
    name), or in which the longitude field can be indexed but the latitude
    name is unknown: [KeyError].  A name that is only a dimension of the
    file is not unknown to [ds[name]], which gives the positions along it:
    these have one axis, and the subscript raises [IndexError]. *)
Theorem create_1d_coord_missing_field e l
    (filename lon_varname lat_varname x_dim y_dim : string) f_in
    (sizes : gmap string nat) :
  disk e !! filename = Some f_in ->
  calculate_dimensions (variables f_in) = Some sizes ->
  let unknown k :=
    variables f_in !! k = None /\ sizes !! k = None
    /\ (forall ref, before_dot k = Some ref -> variables f_in !! ref = None) in
  let bare_dim k := variables f_in !! k = None /\ is_Some (sizes !! k) in
  let lon_fine :=
    exists lon2d lon0, variables f_in !! lon_varname = Some lon2d
                       /\ row0 (values lon2d) = Some lon0 in
  (unknown lon_varname \/ (lon_fine /\ unknown lat_varname) ->
   create_1d_coord e filename lon_varname lat_varname x_dim y_dim l
   = (Raised KeyError, l ++ [(DEBUG, "Open file: " +:+ filename)]))
  /\ (bare_dim lon_varname \/ (lon_fine /\ bare_dim lat_varname) ->
      create_1d_coord e filename lon_varname lat_varname x_dim y_dim l
      = (Raised IndexError, l ++ [(DEBUG, "Open file: " +:+ filename)])).
Proof.
  intros Hdisk Hcd unknown bare_dim lon_fine.
  assert (Hstart : forall (lon2d : Var elt) lon0,
             variables f_in !! lon_varname = Some lon2d ->
             row0 (values lon2d) = Some lon0 ->
             forall r, Xr.getitem f_in lat_varname = r ->
             (forall x, r <> Returned (Stored x)) ->
             create_1d_coord e filename lon_varname lat_varname x_dim y_dim l
             = (match r with
                | Returned _ => Raised IndexError
                | Raised err => Raised err
                | Aborted => Aborted
                | Exited c => Exited c
                | Unmodelled => Unmodelled
                end, l ++ [(DEBUG, "Open file: " +:+ filename)])).
  { intros lon2d lon0 Hlon Hr r Hget Hns. unfold create_1d_coord, open_dataset.
    unfold bind at 1. unfold logging_debug, modify.
    unfold bind at 1. rewrite Hdisk. unfold or_raise at 1, ret at 1.
    unfold bind at 1. unfold Xr.getitem at 1. rewrite Hlon. unfold lift at 1.
    unfold bind at 1. cbn [item_row0]. rewrite Hr. unfold or_raise at 1, ret at 1.
    unfold bind at 1. rewrite Hget.
    destruct r as [[v|d n]| | | |]; try reflexivity.
    exfalso. now apply (Hns v). }
  assert (Hfirst : forall r, Xr.getitem f_in lon_varname = r ->
             (forall x, r <> Returned (Stored x)) ->
             create_1d_coord e filename lon_varname lat_varname x_dim y_dim l
             = (match r with
                | Returned _ => Raised IndexError
                | Raised err => Raised err
                | Aborted => Aborted
                | Exited c => Exited c
                | Unmodelled => Unmodelled
                end, l ++ [(DEBUG, "Open file: " +:+ filename)])).
  { intros r Hget Hns. unfold create_1d_coord, open_dataset.
    unfold bind at 1. unfold logging_debug, modify.
    unfold bind at 1. rewrite Hdisk. unfold or_raise at 1, ret at 1.
    unfold bind at 1. rewrite Hget.
    destruct r as [[v|d n]| | | |]; try reflexivity.
    exfalso. now apply (Hns v). }
  split.
  - intros [(Hk & Hn & Hdot) | ((lon2d & lon0 & Hlon & Hr) & Hk & Hn & Hdot)].
    + rewrite (Hfirst _ (getitem_unknown _ _ _ Hcd Hk Hn Hdot)); [reflexivity|discriminate].
    + rewrite (Hstart _ _ Hlon Hr _ (getitem_unknown _ _ _ Hcd Hk Hn Hdot));
        [reflexivity|discriminate].
  - intros [(Hk & [n Hn]) | ((lon2d & lon0 & Hlon & Hr) & Hk & [n Hn])].
    + rewrite (Hfirst _ (getitem_bare_dim _ _ _ _ Hcd Hk Hn)); [reflexivity|discriminate].
    + rewrite (Hstart _ _ Hlon Hr _ (getitem_bare_dim _ _ _ _ Hcd Hk Hn));
        [reflexivity|discriminate].
Qed.

(** [a[0, :]] fails exactly on arrays with fewer than two axes or without a
    row, [a[:, 0]] exactly on arrays with fewer than two axes or without a
    column. *)
Lemma row0_None (a : ndarray elt) :
  row0 a = None <-> (ndim a < 2)%nat \/ (exists sh, shape a = 0%nat :: sh).
Proof.
  unfold row0, ndim. destruct (shape a) as [|n0 [|n1 rest]]; cbn [length].
  - split; [left; lia | reflexivity].
  - split; [left; lia | reflexivity].
  - destruct (Nat.eqb_spec n0 0) as [->|Hn].
    + split; [right; eauto | reflexivity].
    + split; [discriminate|]. intros [?|[sh Hsh]]; [lia | congruence].
Qed.

Lemma col0_None (a : ndarray elt) :
  col0 a = None <-> (ndim a < 2)%nat \/ (exists n0 sh, shape a = n0 :: 0%nat :: sh).
Proof.
  unfold col0, ndim. destruct (shape a) as [|n0 [|n1 rest]]; cbn [length].
  - split; [left; lia | reflexivity].
  - split; [left; lia | reflexivity].
  - destruct (Nat.eqb_spec n1 0) as [->|Hn].
    + split; [right; eauto | reflexivity].
    + split; [discriminate|]. intros [?|(m & sh & Hsh)]; [lia | congruence].
Qed.

(** A longitude field with fewer than two axes or with no row, or (the
    longitude field being fine) a latitude field with fewer than two axes
    or with no column: [IndexError] at the subscript, before anything is
    assigned. *)
Theorem create_1d_coord_bad_shape e l
    (filename lon_varname lat_varname x_dim y_dim : string) f_in (lon2d : Var elt) :
  disk e !! filename = Some f_in ->
  variables f_in !! lon_varname = Some lon2d ->
  ((ndim (values lon2d) < 2)%nat \/ (exists sh, shape (values lon2d) = 0%nat :: sh))
  \/ (exists lon0 lat2d,
        row0 (values lon2d) = Some lon0
        /\ variables f_in !! lat_varname = Some lat2d
        /\ ((ndim (values lat2d) < 2)%nat
            \/ (exists n0 sh, shape (values lat2d) = n0 :: 0%nat :: sh))) ->
  create_1d_coord e filename lon_varname lat_varname x_dim y_dim l
  = (Raised IndexError, l ++ [(DEBUG, "Open file: " +:+ filename)]).
Proof.
  intros Hdisk Hlon Hbad. unfold create_1d_coord, open_dataset, Xr.getitem.
  unfold bind at 1. unfold logging_debug, modify.
  unfold bind at 1. rewrite Hdisk. unfold or_raise at 1, ret at 1.
  unfold bind at 1. rewrite Hlon. unfold lift at 1.
  destruct Hbad as [Hrow | (lon0 & lat2d & Hr & Hlat & Hcol)].
  - apply row0_None in Hrow. unfold bind at 1. cbn [item_row0]. now rewrite Hrow.
  - apply col0_None in Hcol.
    unfold bind at 1. cbn [item_row0]. rewrite Hr. unfold or_raise at 1, ret at 1.
    unfold bind at 1. rewrite Hlat. unfold lift at 1.
    unfold bind at 1. cbn [item_col0]. now rewrite Hcol.
Qed.

(** Fields with more than two axes are not cut down to an axis: the first
    "row" of the longitude field then has two axes or more, and building
    the one-dimensional [lon] array from it raises [ValueError]. *)
Theorem create_1d_coord_too_many_axes e l
    (filename lon_varname lat_varname x_dim y_dim : string) f_in
    (lon2d lat2d : Var elt) (lat0 : ndarray elt) (n0 n1 n2 : nat) (sh : list nat) :
  disk e !! filename = Some f_in ->
  variables f_in !! lon_varname = Some lon2d ->
  shape (values lon2d) = S n0 :: n1 :: n2 :: sh ->
  variables f_in !! lat_varname = Some lat2d ->
  col0 (values lat2d) = Some lat0 ->
  create_1d_coord e filename lon_varname lat_varname x_dim y_dim l
  = (Raised ValueError, l ++ [(DEBUG, "Open file: " +:+ filename)]).
Proof.
  intros Hdisk Hlon Hsh Hlat Hc. unfold create_1d_coord, open_dataset, Xr.getitem.
  unfold bind at 1. unfold logging_debug, modify.
  unfold bind at 1. rewrite Hdisk. unfold or_raise at 1, ret at 1.
  unfold bind at 1. rewrite Hlon. unfold lift at 1.
  unfold bind at 1. cbn [item_row0]. unfold row0. rewrite Hsh. cbn [Nat.eqb].
  unfold or_raise at 1, ret at 1.
  unfold bind at 1. rewrite Hlat. unfold lift at 1.
  unfold bind at 1. cbn [item_col0]. rewrite Hc. unfold or_raise at 1, ret at 1.
  unfold bind at 1. unfold new_DataArray at 1. cbn [shape]. reflexivity.
Qed.

End Create1dCoordMore.

Section Create1dCoordKeeps.
Import Py Np Xr BaseCase.
Context {elt : Type}.
Implicit Types (e : env elt) (l : log) (f_in f_out : Dataset elt).

Lemma row0_2d_shaped (a r : ndarray elt) (ny nx : nat) :
  shape a = [ny; nx] -> well_shaped a -> (0 < ny)%nat ->
  row0 a = Some r -> well_shaped r.
Proof.
  intros Hsh Hwf Hny. unfold row0. rewrite Hsh.
  destruct (Nat.eqb_spec ny 0) as [->|_]; [lia|].
  intros [= <-]. unfold well_shaped in *. cbn [shape flat].
  rewrite Hsh in Hwf. cbn [size_of fold_right] in *.
  rewrite length_take. nia.
Qed.

Lemma col0_2d_shaped (a c : ndarray elt) (ny nx : nat) :
  shape a = [ny; nx] -> well_shaped a -> (0 < nx)%nat ->
  col0 a = Some c -> well_shaped c.
Proof.
  intros Hsh Hwf Hnx. unfold col0. rewrite Hsh.
  destruct (Nat.eqb_spec nx 0) as [->|_]; [lia|].
  intros [= <-]. unfold well_shaped in *. cbn [shape flat].
  rewrite Hsh in Hwf. cbn [size_of fold_right] in *.
  rewrite Nat.mul_1_r in *.
  assert (Hin : forall k, (k < ny)%nat -> is_Some (flat a !! (k * nx)%nat)).
  { intros k Hk. apply lookup_lt_is_Some. nia. }
  destruct ny as [|ny']; [reflexivity|].
  destruct (Hin 0%nat) as [x0 _]; [lia|].
  rewrite (concat_singletons _ (fun k => default x0 (flat a !! (k * nx)%nat))).
  - rewrite length_map, length_seq. lia.
  - intros k Hk%elem_of_seq. destruct (Hin k) as [y Hy]; [lia|].
    rewrite Hy. now apply take_1_drop.
Qed.

(** A successful call keeps what the file holds: every variable of the file
    is in the dataset returned, with its dimensions and values, and the
    global attributes are those of the file. *)
Theorem create_1d_coord_keeps_the_file e l
    (filename lon_varname lat_varname x_dim y_dim : string)
    f_in (sizes : gmap string nat) (lon2d lat2d : Var elt) (ny nx : nat) :
  disk e !! filename = Some f_in ->
  grid_file f_in sizes lon_varname lat_varname x_dim y_dim lon2d lat2d ny nx ->
  exists f_out,
    create_1d_coord e filename lon_varname lat_varname x_dim y_dim l
    = (Returned f_out, l ++ [(DEBUG, "Open file: " +:+ filename)])
    /\ (forall k v, variables f_in !! k = Some v -> variables f_out !! k = Some v)
    /\ dom (variables f_out) = dom (variables f_in) ∪ {[ "lon"; "lat"; x_dim; y_dim ]}
    /\ coord_names f_in ⊆ coord_names f_out
    /\ attrs f_out = attrs f_in.
Proof.
  intros Hdisk Hgf.
  destruct (create_1d_coord_run e l filename lon_varname lat_varname x_dim y_dim
              f_in sizes lon2d lat2d ny nx Hdisk Hgf)
    as (lon0 & lat0 & _ & _ & _ & _ & _ & _ & Hrun).
  destruct Hgf as [_ _ _ _ _ _ _ _ _ _ Hxf Hyf [Hl1 _] [Ha1 _]].
  eexists. split; [exact Hrun|]. cbn [variables coord_names attrs].
  split; [|split; [|split; [|reflexivity]]].
  - intros k v Hk.
    assert (Hkd : k ∈ dom (variables f_in)) by (apply elem_of_dom; eauto).
    rewrite !lookup_insert_ne; [exact Hk|..]; intros <-; contradiction.
  - rewrite !dom_insert_L. clear. set_solver.
  - apply union_subseteq_l.
Qed.

(** A successful call keeps the invariants of a dataset: what it returns
    is well formed for the same dimension sizes. *)
Theorem create_1d_coord_well_formed e l
    (filename lon_varname lat_varname x_dim y_dim : string)
    f_in (sizes : gmap string nat) (lon2d lat2d : Var elt) (ny nx : nat) :
  disk e !! filename = Some f_in ->
  grid_file f_in sizes lon_varname lat_varname x_dim y_dim lon2d lat2d ny nx ->
  exists f_out,
    create_1d_coord e filename lon_varname lat_varname x_dim y_dim l
    = (Returned f_out, l ++ [(DEBUG, "Open file: " +:+ filename)])
    /\ well_formed f_out sizes.
Proof.
  intros Hdisk Hgf.
  destruct (create_1d_coord_run e l filename lon_varname lat_varname x_dim y_dim
              f_in sizes lon2d lat2d ny nx Hdisk Hgf)
    as (lon0 & lat0 & Hr & Hc & Hrs & Hcs & _ & _ & Hrun).
  destruct Hgf as [Hwf Hlon Hlond Hlat Hlatd Hny Hnx Hrow Hcol Hxy Hxf Hyf [Hl1 Hl2] [Ha1 Ha2]].
  pose proof (wf_fits _ _ Hwf _ _ Hlon) as Hfl. cbn beta in Hfl.
  pose proof (wf_fits _ _ Hwf _ _ Hlat) as Hfa. cbn beta in Hfa.
  pose proof (wf_shaped _ _ Hwf _ _ Hlat) as Hsa. cbn beta in Hsa.
  pose proof (wf_shaped _ _ Hwf _ _ Hlon) as Hsl. cbn beta in Hsl.
  pose proof (fits_2d _ _ _ _ _ _ Hfl Hlond Hny Hnx) as Hshl.
  pose proof (fits_2d _ _ _ _ _ _ Hfa Hlatd Hny Hnx) as Hsha.
  pose proof (row0_2d_shaped _ _ _ _ Hshl Hsl Hrow Hr) as Hwl.
  pose proof (col0_2d_shaped _ _ _ _ Hsha Hsa Hcol Hc) as Hwa.
  destruct Hwf as [Hfit Hshp Hsc Hco Hdc].
  eexists. split; [exact Hrun|].
  constructor; cbn [variables coord_names].
  - assert (Hvlon : var_fits sizes {| dims := [x_dim]; values := lon0 |}).
    { unfold var_fits. cbn [dims values]. rewrite Hrs.
      constructor; [exact Hnx | constructor]. }
    assert (Hvlat : var_fits sizes {| dims := [y_dim]; values := lat0 |}).
    { unfold var_fits. cbn [dims values]. rewrite Hcs.
      constructor; [exact Hny | constructor]. }
    repeat apply map_Forall_insert_2; assumption.
  - repeat apply map_Forall_insert_2; assumption.
  - intros d Hd. specialize (Hsc d Hd). unfold is_scalar_var in *.
    rewrite !lookup_insert. repeat case_decide; try reflexivity. exact Hsc.
  - rewrite !dom_insert_L. clear -Hco. set_solver.
  - rewrite !dom_insert_L. intros d Hd Hin.
    repeat (apply elem_of_union in Hin as [Hin|Hin]).
    + apply elem_of_singleton in Hin. subst d. rewrite <- (Hl2 Hd). clear. set_solver.
    + apply elem_of_singleton in Hin. subst d. clear. set_solver.
    + apply elem_of_singleton in Hin. subst d. rewrite <- (Ha2 Hd). clear. set_solver.
    + apply elem_of_singleton in Hin. subst d. clear. set_solver.
    + apply elem_of_union_l. now apply Hdc.
Qed.

(** On a regular grid (the longitude is the same in every row, the
    latitude the same in every column) the two axes give the position of
    every grid point: at row [i] and column [j] the longitude is [lon[j]],
    the latitude [lat[i]], and these are the values of the coordinates
    [x_dim] and [y_dim]. *)
Theorem create_1d_coord_regular_grid e l
    (filename lon_varname lat_varname x_dim y_dim : string)
    f_in (sizes : gmap string nat) (lon2d lat2d : Var elt) (ny nx : nat) :
  disk e !! filename = Some f_in ->
  grid_file f_in sizes lon_varname lat_varname x_dim y_dim lon2d lat2d ny nx ->
  (forall i j, (i < ny)%nat -> (j < nx)%nat ->
               item2 (values lon2d) i j = item2 (values lon2d) 0 j) ->
  (forall i j, (i < ny)%nat -> (j < nx)%nat ->
               item2 (values lat2d) i j = item2 (values lat2d) i 0) ->
  exists f_out (lon lat : Var elt),
    create_1d_coord e filename lon_varname lat_varname x_dim y_dim l
    = (Returned f_out, l ++ [(DEBUG, "Open file: " +:+ filename)])
    /\ variables f_out !! x_dim = Some lon
    /\ variables f_out !! y_dim = Some lat
    /\ (forall i j, (i < ny)%nat -> (j < nx)%nat ->
          exists x y, item2 (values lon2d) i j = Some x /\ item1 (values lon) j = Some x
                      /\ item2 (values lat2d) i j = Some y /\ item1 (values lat) i = Some y).
Proof.
  intros Hdisk Hgf Hreg_lon Hreg_lat.
  destruct (create_1d_coord_run e l filename lon_varname lat_varname x_dim y_dim
              f_in sizes lon2d lat2d ny nx Hdisk Hgf)
    as (lon0 & lat0 & _ & _ & _ & _ & Hri & Hci & Hrun).
  destruct Hgf as [_ _ _ _ _ Hny Hnx _ _ Hxy _ _ [_ Hl2] [_ Ha2]].
  assert (Hxs : x_dim ∈ dom sizes) by (apply elem_of_dom; eauto).
  assert (Hys : y_dim ∈ dom sizes) by (apply elem_of_dom; eauto).
  assert (Hxlat : x_dim <> "lat").
  { intros E. apply Hxy. rewrite E. symmetry. apply Ha2. now rewrite <- E. }
  assert (Hylon : y_dim <> "lon").
  { intros E. apply Hxy. rewrite E. apply Hl2. now rewrite <- E. }
  eexists _, {| dims := [x_dim]; values := lon0 |}, {| dims := [y_dim]; values := lat0 |}.
  split; [exact Hrun|]. cbn [variables values].
  split; [rewrite !lookup_insert; repeat case_decide; congruence|].
  split; [rewrite !lookup_insert; repeat case_decide; congruence|].
  intros i j Hi Hj.
  destruct (Hri j Hj) as (x & Hx1 & Hx2). destruct (Hci i Hi) as (y & Hy1 & Hy2).
  exists x, y. rewrite (Hreg_lon i j Hi Hj), (Hreg_lat i j Hi Hj). auto.
Qed.

End Create1dCoordKeeps.

(** ** More on [add_tag_to_filename]: directories, tagging again, and when a
    name is returned at all *)

Section BasenameFacts.
Import Py.

(** No occurrence of the character in the text. *)
Lemma rfind_absent (c : ascii) (s : string) :
  c ∉ list_ascii_of_string s -> rfind c s = -1.
Proof.
  induction s as [|a s IH]; intros Hc; [reflexivity|].
  cbn [list_ascii_of_string] in Hc. apply not_elem_of_cons in Hc as [Hca Hcs].
  cbn [rfind]. rewrite (IH Hcs). cbn.
  destruct (Ascii.eqb_spec a c); [congruence | reflexivity].
Qed.

(** The last occurrence, when something without the character follows. *)
Lemma rfind_last (c : ascii) (d n : string) :
  c ∉ list_ascii_of_string n ->
  rfind c (d +:+ String c n) = len d.
Proof.
  intros Hn. induction d as [|a d IH].
  - rewrite append_nil. cbn [rfind]. rewrite (rfind_absent c n Hn). cbn.
    now rewrite Ascii.eqb_refl.
  - rewrite append_cons. cbn [rfind]. rewrite IH, len_cons.
    pose proof (len_nonneg d). destruct (Z.leb_spec 0 (len d)); lia.
Qed.

Lemma substring_all (s : string) : String.substring 0 (String.length s) s = s.
Proof. induction s as [|a s IH]; [reflexivity|]. cbn. now rewrite IH. Qed.

Lemma substring_skip (p s : string) (n : nat) :
  String.substring (String.length p) n (p +:+ s) = String.substring 0 n s.
Proof.
  induction p as [|a p IH]; [now rewrite append_nil|].
  rewrite append_cons. cbn [String.length String.substring]. exact IH.
Qed.

Lemma length_append (a b : string) :
  String.length (a +:+ b) = (String.length a + String.length b)%nat.
Proof. pose proof (len_app a b) as H. unfold len in H. lia. Qed.

(** [s[len(p):]] of [p + s] is [s]. *)
Lemma slice_from_after (p s : string) (i : Z) :
  i = len p -> slice_from (p +:+ s) i = s.
Proof.
  intros ->. unfold slice_from. pose proof (len_nonneg p). pose proof (len_nonneg s).
  rewrite len_app.
  destruct (Z.ltb_spec (len p) 0); [lia|].
  replace (Z.min (len p) (len p + len s)) with (len p) by lia.
  unfold len. rewrite Nat2Z.id, length_append.
  replace (String.length p + String.length s - String.length p)%nat
    with (String.length s) by lia.
  rewrite substring_skip. apply substring_all.
Qed.

(** The base name of [dir/name] is [name], and a name without a slash is
    its own base name. *)
Lemma basename_of_path (dir name : string) :
  "/"%char ∉ list_ascii_of_string name ->
  PosixPath.basename (dir +:+ String "/" name) = name.
Proof.
  intros Hn. unfold PosixPath.basename. rewrite (rfind_last _ dir name Hn).
  replace (dir +:+ String "/" name) with ((dir +:+ String "/" EmptyString) +:+ name)
    by (now rewrite append_assoc, append_cons, append_nil).
  apply slice_from_after. rewrite len_app, len_cons. unfold len. cbn [String.length]. lia.
Qed.

Lemma basename_of_name (name : string) :
  "/"%char ∉ list_ascii_of_string name ->
  PosixPath.basename name = name.
Proof.
  intros Hn. unfold PosixPath.basename. rewrite (rfind_absent _ name Hn).
  apply (slice_from_after EmptyString name). reflexivity.
Qed.

End BasenameFacts.

Section AddTagMore.
Import Py BaseCase.
Context {elt : Type}.
Implicit Types (e : env elt) (l : log).

(** Only the base name decides how the call ends and what it returns; the
    rest of the path shows in the error record alone. *)
Lemma add_tag_same_basename e l (f1 f2 tag : string) :
  PosixPath.basename f1 = PosixPath.basename f2 ->
  (add_tag_to_filename e f1 tag l).1 = (add_tag_to_filename e f2 tag l).1.
Proof.
  intros Hb. unfold add_tag_to_filename. rewrite Hb.
  unfold bind, or_raise, ret, raise, logging_error, modify, os_abort.
  destruct (getitem (PosixPath.basename f2) (-10)) as [c|]; [|reflexivity].
  cbv beta iota.
  destruct (getitem (PosixPath.basename f2) (if Ascii.eqb c "c" then -10 - 1 else -10))
    as [b|]; [|reflexivity].
  cbv beta iota.
  destruct (negb (Ascii.eqb b ".") && negb (Ascii.eqb b "_")); reflexivity.
Qed.

(** The directory of the file plays no part: [dir/name] ends like [name],
    with the same name returned. *)
Theorem add_tag_to_filename_ignores_directory e l (dir name tag : string) :
  "/"%char ∉ list_ascii_of_string name ->
  (add_tag_to_filename e (dir +:+ String "/" name) tag l).1
  = (add_tag_to_filename e name tag l).1.
Proof.
  intros Hn. apply add_tag_same_basename.
  now rewrite basename_of_path, basename_of_name.
Qed.

End AddTagMore.

Section BasenameHasNoSlash.
Import Py.

Lemma rfind_negative (c : ascii) (s : string) :
  rfind c s < 0 -> c ∉ list_ascii_of_string s.
Proof.
  induction s as [|a s IH]; cbn [rfind list_ascii_of_string].
  - intros _. apply not_elem_of_nil.
  - destruct (Z.leb_spec 0 (rfind c s)) as [|Hneg]; [lia|].
    destruct (Ascii.eqb_spec a c) as [|Hne]; [lia|].
    intros _. apply not_elem_of_cons. split; [congruence | now apply IH].
Qed.

Lemma slice_from_cons (a : ascii) (r : string) (i : Z) :
  0 <= i -> slice_from (String a r) (i + 1) = slice_from r i.
Proof.
  intros Hi. unfold slice_from. rewrite len_cons. pose proof (len_nonneg r).
  destruct (Z.ltb_spec (i + 1) 0); [lia|]. destruct (Z.ltb_spec i 0); [lia|].
  replace (Z.to_nat (Z.min (i + 1) (1 + len r))) with (S (Z.to_nat (Z.min i (len r))))
    by lia.
  reflexivity.
Qed.

Lemma slice_from_0 (s : string) : slice_from s 0 = s.
Proof. apply (slice_from_after EmptyString s). reflexivity. Qed.

(** A base name holds no slash. *)
Lemma basename_no_slash (p : string) :
  "/"%char ∉ list_ascii_of_string (PosixPath.basename p).
Proof.
  unfold PosixPath.basename. induction p as [|a p IH].
  - apply not_elem_of_nil.
  - cbn [rfind]. destruct (Z.leb_spec 0 (rfind "/" p)) as [Hk|Hk].
    + rewrite slice_from_cons by lia. exact IH.
    + pose proof (rfind_negative _ _ Hk) as Hno.
      destruct (Ascii.eqb_spec a "/") as [->|Hne].
      * rewrite (slice_from_cons "/" p 0) by lia. now rewrite slice_from_0.
      * change (-1 + 1) with 0. rewrite slice_from_0.
        cbn [list_ascii_of_string]. apply not_elem_of_cons. split; [congruence|assumption].
Qed.

Lemma list_ascii_of_string_app (a b : string) :
  list_ascii_of_string (a +:+ b) = list_ascii_of_string a ++ list_ascii_of_string b.
Proof.
  induction a as [|x a IH]; [now rewrite append_nil|].
  rewrite append_cons. cbn [list_ascii_of_string]. now rewrite IH.
Qed.

(** The digits of a date field are digits. *)
Lemma digit_is_digit (n : Z) : digit_value (Datetime.digit n) = Some (n mod 10).
Proof.
  unfold Datetime.digit. pose proof (Z.mod_pos_bound n 10 ltac:(lia)) as Hm.
  assert (Hc : n mod 10 = 0 \/ n mod 10 = 1 \/ n mod 10 = 2 \/ n mod 10 = 3
               \/ n mod 10 = 4 \/ n mod 10 = 5 \/ n mod 10 = 6 \/ n mod 10 = 7
               \/ n mod 10 = 8 \/ n mod 10 = 9) by lia.
  destruct Hc as [-> | [-> | [-> | [-> | [-> | [-> | [-> | [-> | [-> | ->]]]]]]]]];
    reflexivity.
Qed.

Lemma digit_not_slash (n : Z) : Datetime.digit n <> "/"%char.
Proof.
  intros H. pose proof (digit_is_digit n) as Hd. rewrite H in Hd. discriminate Hd.
Qed.

Lemma strftime_ymd_no_slash (d : Datetime.date) :
  "/"%char ∉ list_ascii_of_string (Datetime.strftime_ymd d).
Proof.
  unfold Datetime.strftime_ymd, Datetime.fmt_y, Datetime.fmt_m, Datetime.fmt_d,
    Datetime.two_digits.
  rewrite !append_cons, !append_nil. cbn [list_ascii_of_string].
  rewrite !not_elem_of_cons. repeat split;
    try (intros H; symmetry in H; revert H; apply digit_not_slash).
  apply not_elem_of_nil.
Qed.

Lemma strftime_ymd_length (d : Datetime.date) :
  String.length (Datetime.strftime_ymd d) = 6%nat.
Proof. reflexivity. Qed.

End BasenameHasNoSlash.

Section AddTagTwice.
Import Py BaseCase.
Context {elt : Type}.
Implicit Types (e : env elt) (l : log).

(** A name that tagging returned can be tagged again: the call finds the
    boundary at the ['_'] before the date code it wrote, and the new tag
    goes between the first tag and the new date code. *)
Theorem add_tag_to_filename_twice e l (filename tag tag2 : string)
    (prefix : string) (sep : ascii) (tail : string) :
  PosixPath.basename filename = prefix +:+ String sep tail ->
  sep = "."%char \/ sep = "_"%char ->
  String.length tail = 9%nat
  \/ (String.length tail = 10%nat /\ String.get 0 tail = Some "c"%char) ->
  "/"%char ∉ list_ascii_of_string tag ->
  exists tagged,
    add_tag_to_filename e filename tag l = (Returned tagged, l)
    /\ add_tag_to_filename e tagged tag2 l
       = (Returned (prefix +:+ "_" +:+ tag +:+ "_" +:+ tag2 +:+ "_c"
                    +:+ Datetime.strftime_ymd (today e) +:+ ".nc"), l).
Proof.
  intros Hb Hsep Htail Htag.
  set (date := Datetime.strftime_ymd (today e)).
  exists (prefix +:+ "_" +:+ tag +:+ "_c" +:+ date +:+ ".nc"). split.
  - rewrite (add_tag_run e filename tag l prefix sep tail Hb).
    + destruct Hsep as [-> | ->]; reflexivity.
    + destruct Htail as [H9 | H10]; [left | right; exact H10].
      split; [exact H9|]. destruct Hsep as [-> | ->]; discriminate.
  - assert (Hpre : "/"%char ∉ list_ascii_of_string prefix).
    { pose proof (basename_no_slash filename) as Hno. rewrite Hb in Hno.
      rewrite list_ascii_of_string_app in Hno.
      intros Hin. apply Hno. apply elem_of_app. now left. }
    assert (Hself : PosixPath.basename (prefix +:+ "_" +:+ tag +:+ "_c" +:+ date +:+ ".nc")
                    = (prefix +:+ "_" +:+ tag) +:+ String "_" ("c" +:+ date +:+ ".nc")).
    { rewrite basename_of_name.
      - now rewrite !append_assoc.
      - rewrite !list_ascii_of_string_app. rewrite !not_elem_of_app.
        repeat split; try assumption; try apply strftime_ymd_no_slash;
          cbn [list_ascii_of_string]; rewrite ?not_elem_of_cons;
          repeat split; try discriminate; apply not_elem_of_nil. }
    rewrite (add_tag_run e _ tag2 l _ "_"%char _ Hself).
    + cbn [Ascii.eqb negb andb]. now rewrite !append_assoc.
    + right. split; [|reflexivity].
      rewrite append_cons, append_nil. cbn [String.length].
      rewrite length_append. unfold date. rewrite strftime_ymd_length. reflexivity.
Qed.

End AddTagTwice.

Section AddTagConverse.
Import Py BaseCase.
Context {elt : Type}.
Implicit Types (e : env elt) (l : log).

Lemma get_split (s : string) (n : nat) (c : ascii) :
  String.get n s = Some c ->
  exists p t, s = p +:+ String c t /\ String.length p = n.
Proof.
  revert n. induction s as [|a s IH]; intros n Hn; [discriminate|].
  destruct n as [|n]; cbn [String.get] in Hn.
  - injection Hn as ->. exists EmptyString, s. split; reflexivity.
  - destruct (IH n Hn) as (p & t & -> & Hp).
    exists (String a p), t. split; [reflexivity | cbn [String.length]; lia].
Qed.

Lemma get_after_next (p : string) (c : ascii) (t : string) :
  String.get (S (String.length p)) (p +:+ String c t) = String.get 0 t.
Proof.
  induction p as [|a p IH]; [reflexivity|].
  rewrite append_cons. cbn [String.length String.get]. exact IH.
Qed.

(** A character found at a negative index has that many characters, less
    one, after it. *)
Lemma getitem_negative_split (b : string) (k : Z) (c : ascii) :
  0 < k -> getitem b (- k) = Some c ->
  exists p t, b = p +:+ String c t /\ len t = k - 1.
Proof.
  intros Hk. unfold getitem.
  destruct (Z.ltb_spec (- k) 0); [|lia].
  destruct (Z.ltb_spec (- k + len b) 0); [discriminate|].
  destruct (Z.leb_spec (len b) (- k + len b)); [discriminate|]. cbn [orb].
  intros Hget. destruct (get_split _ _ _ Hget) as (p & t & Hb & Hp).
  exists p, t. split; [exact Hb|].
  assert (Hlen : len b = len p + (1 + len t)) by (rewrite Hb, len_app, len_cons; lia).
  unfold len in *. lia.
Qed.

(** A name is returned only for a base name with ['.'] or ['_'] at the
    boundary, it is the name built from the part before the boundary, and
    nothing was logged: every other base name ends in [IndexError] or in
    the abort. *)
Theorem add_tag_to_filename_returns_only_tagged e l (filename tag : string)
    (name : string) (l' : log) :
  add_tag_to_filename e filename tag l = (Returned name, l') ->
  exists (prefix : string) (sep : ascii) (tail : string),
    PosixPath.basename filename = prefix +:+ String sep tail
    /\ (sep = "."%char \/ sep = "_"%char)
    /\ (String.length tail = 9%nat
        \/ (String.length tail = 10%nat /\ String.get 0 tail = Some "c"%char))
    /\ name = prefix +:+ "_" +:+ tag +:+ "_c"
              +:+ Datetime.strftime_ymd (today e) +:+ ".nc"
    /\ l' = l.
Proof.
  intros Hrun.
  assert (Hdecide : forall prefix ch tail,
             PosixPath.basename filename = prefix +:+ String ch tail ->
             (String.length tail = 9%nat /\ ch <> "c"%char)
             \/ (String.length tail = 10%nat /\ String.get 0 tail = Some "c"%char) ->
             (ch = "."%char \/ ch = "_"%char)
             /\ name = prefix +:+ "_" +:+ tag +:+ "_c"
                       +:+ Datetime.strftime_ymd (today e) +:+ ".nc"
             /\ l' = l).
  { intros prefix ch tail Hb Hcase.
    rewrite (add_tag_run e filename tag l prefix ch tail Hb Hcase) in Hrun.
    revert Hrun.
    destruct (Ascii.eqb_spec ch ".") as [Hdot|Hdot];
      [|destruct (Ascii.eqb_spec ch "_") as [Hus|Hus]];
      cbn [negb andb]; intros Hrun; try discriminate Hrun;
      injection Hrun as <- <-; auto. }
  destruct (getitem (PosixPath.basename filename) (-10)) as [c|] eqn:H10.
  2:{ unfold add_tag_to_filename, bind, or_raise, raise in Hrun.
      rewrite H10 in Hrun. discriminate Hrun. }
  destruct (getitem_negative_split _ 10 c ltac:(lia) H10) as (p & t & Hb & Ht).
  destruct (Ascii.eqb_spec c "c") as [->|Hc].
  - destruct (getitem (PosixPath.basename filename) (-11)) as [ch|] eqn:H11.
    2:{ unfold add_tag_to_filename, bind, or_raise, raise, ret in Hrun.
        rewrite H10 in Hrun. cbv beta iota in Hrun.
        rewrite Ascii.eqb_refl in Hrun. change (-10 - 1) with (-11) in Hrun.
        rewrite H11 in Hrun. discriminate Hrun. }
    destruct (getitem_negative_split _ 11 ch ltac:(lia) H11) as (p' & t' & Hb' & Ht').
    assert (Hfirst : String.get 0 t' = Some "c"%char).
    { rewrite <- (get_after_next p' ch t'), <- Hb', Hb.
      assert (Hlen : len (p +:+ String "c" t) = len (p' +:+ String ch t')) by congruence.
      rewrite !len_app, !len_cons in Hlen.
      replace (S (String.length p')) with (String.length p) by (unfold len in *; lia).
      apply get_after. }
    destruct (Hdecide p' ch t' Hb') as (Hsep & Hname & Hl).
    { right. split; [unfold len in Ht'; lia | exact Hfirst]. }
    exists p', ch, t'. repeat split; try assumption.
    right. split; [unfold len in Ht'; lia | exact Hfirst].
  - destruct (Hdecide p c t Hb) as (Hsep & Hname & Hl).
    { left. split; [unfold len in Ht; lia | exact Hc]. }
    exists p, c, t. repeat split; try assumption.
    left. unfold len in Ht. lia.
Qed.

End AddTagConverse.

(** ** More on [update_metadata]: what it leaves alone and what it logs *)

Section UpdateMetadataMore.
Import Py Xr BaseCase.
Context {elt : Type}.
Implicit Types (e : env elt) (nc : Dataset elt) (l : log) (self : t).

(** [update_metadata] changes nothing but the eleven attributes it is
    about: the variables and the coordinates of the dataset stay, and so
    does every attribute that is neither one of the three it sets nor one
    of the eight it deletes. *)
Theorem update_metadata_leaves_the_rest self e nc l :
  exists nc' l',
    update_metadata self e nc l = (Returned nc', l')
    /\ variables nc' = variables nc
    /\ coord_names nc' = coord_names nc
    /\ forall k : string,
         k ∉ [ "Created_on"; "Created_by"; "Created_with";
               "source_code"; "SVN_url"; "hostname"; "historyHistory_Log";
               "Logname"; "Host"; "Version"; "Compiler_Optimized" ] ->
         attrs nc' !! k = attrs nc !! k.
Proof.
  destruct (update_metadata_run self e nc l) as (nc' & l' & Hrun & Hv & Hc & Hat).
  exists nc', l'. repeat (split; [assumption|]).
  intros k Hk. rewrite Hat.
  rewrite !not_elem_of_cons in Hk.
  destruct Hk as (H1 & H2 & H3 & Hdel).
  rewrite bool_decide_eq_false_2.
  - now rewrite !lookup_insert_ne by congruence.
  - unfold del_attrs. change ("history" +:+ "History_Log") with "historyHistory_Log".
    rewrite !not_elem_of_cons. exact Hdel.
Qed.

(** The loop logs one debug record for each listed attribute that the
    dataset has, in the order of the list. *)
Lemma delete_attrs_log (names : list string) nc l :
  NoDup names ->
  exists nc',
    delete_attrs names nc l
    = (Returned nc',
       l ++ map (fun k => (DEBUG, "This attr should be deleted : " +:+ k))
                (List.filter (fun k => bool_decide (k ∈ dom (attrs nc))) names)).
Proof.
  intros Hnd. revert nc l. induction Hnd as [|a names Ha Hnd IH]; intros nc l.
  - exists nc. cbn. now rewrite app_nil_r.
  - cbn [delete_attrs List.filter]. unfold bind at 1.
    destruct (bool_decide (a ∈ dom (attrs nc))) eqn:Hin.
    + apply bool_decide_eq_true in Hin. apply elem_of_dom in Hin as [v Hv].
      unfold bind at 1, logging_debug, modify, lift, del_attr. rewrite Hv.
      destruct (IH {| variables := variables nc; coord_names := coord_names nc;
                      attrs := delete a (attrs nc) |}
                   (l ++ [(DEBUG, "This attr should be deleted : " +:+ a)]))
        as (nc' & Hrun).
      exists nc'. rewrite Hrun. cbn [attrs map]. rewrite <- app_assoc. cbn [app].
      f_equal. f_equal. f_equal. f_equal.
      apply List.filter_ext_in. intros k Hk%list_elem_of_In.
      apply bool_decide_ext. rewrite dom_delete_L, elem_of_difference, elem_of_singleton.
      split; [tauto|]. intros Hd. split; [exact Hd|]. intros ->. contradiction.
    + unfold ret at 1. destruct (IH nc l) as (nc' & Hrun). exists nc'. exact Hrun.
Qed.

Lemma update_metadata_logged self e nc l :
  exists nc',
    update_metadata self e nc l
    = (Returned nc',
       l ++ map (fun k => (DEBUG, "This attr should be deleted : " +:+ k))
                (List.filter (fun k => bool_decide (k ∈ dom (attrs nc)))
                   [ "source_code"; "SVN_url"; "hostname"; "historyHistory_Log";
                     "Logname"; "Host"; "Version"; "Compiler_Optimized" ])).
Proof.
  unfold update_metadata.
  match goal with
  | |- context [delete_attrs del_attrs ?nc3 l] =>
      destruct (delete_attrs_log del_attrs nc3 l) as (nc' & Hrun)
  end.
  { unfold del_attrs. change ("history" +:+ "History_Log") with "historyHistory_Log".
    repeat (apply NoDup_cons; split;
            [rewrite ?not_elem_of_cons; repeat split; try discriminate;
             apply not_elem_of_nil|]).
    apply NoDup_nil_2. }
  exists nc'. rewrite Hrun. f_equal. f_equal. f_equal.
  unfold del_attrs. change ("history" +:+ "History_Log") with "historyHistory_Log".
  apply List.filter_ext_in. intros k Hk%list_elem_of_In.
  apply bool_decide_ext. unfold set_attr. cbn [attrs].
  rewrite !dom_insert_L, !elem_of_union, !elem_of_singleton.
  split; [|tauto]. intros [Hc | [Hc | [Hc | Hc]]]; try exact Hc; subst k; exfalso;
    rewrite !elem_of_cons in Hk; rewrite elem_of_nil in Hk;
    repeat (destruct Hk as [Hk | Hk]; [discriminate Hk|]); exact Hk.
Qed.

(** [update_metadata] logs one debug record for each of the eight legacy
    attributes that the dataset had, in the order of the list, and nothing
    else. *)
Theorem update_metadata_log self e nc l :
  exists nc',
    update_metadata self e nc l
    = (Returned nc',
       l ++ map (fun k => (DEBUG, "This attr should be deleted : " +:+ k))
                (List.filter (fun k => bool_decide (k ∈ dom (attrs nc)))
                   [ "source_code"; "SVN_url"; "hostname"; "historyHistory_Log";
                     "Logname"; "Host"; "Version"; "Compiler_Optimized" ])).
Proof. exact (update_metadata_logged self e nc l). Qed.

End UpdateMetadataMore.

(** ** [int] reads back what [str] prints *)

Section IntOfStr.
Import Py.

Lemma int_digits_acc (d : Decimal.uint) (p : positive) (b : bool) :
  d <> Decimal.Nil \/ b = true ->
  int_digits (NilEmpty.string_of_uint d) (Z.pos p) b
  = Some (Z.pos (Pos.of_uint_acc d p)).
Proof.
  revert p b. induction d as [|d IH|d IH|d IH|d IH|d IH|d IH|d IH|d IH|d IH|d IH];
    intros p b Hb;
    [destruct Hb as [Hb | ->]; [congruence | reflexivity] | ..];
    cbn [NilEmpty.string_of_uint int_digits Pos.of_uint_acc];
    match goal with
    | |- context [digit_value ?c] =>
        let v := eval vm_compute in (digit_value c) in
        change (digit_value c) with v; cbv iota
    end;
    match goal with
    | |- int_digits _ ?z true = Some (Z.pos (Pos.of_uint_acc _ ?q)) =>
        replace z with (Z.pos q) by lia; apply IH; now right
    end.
Qed.

Lemma int_digits_zero (d : Decimal.uint) (b : bool) :
  d <> Decimal.Nil \/ b = true ->
  int_digits (NilEmpty.string_of_uint d) 0 b = Some (Z.of_N (Pos.of_uint d)).
Proof.
  revert b. induction d as [|d IH|d IH|d IH|d IH|d IH|d IH|d IH|d IH|d IH|d IH];
    intros b Hb;
    [destruct Hb as [Hb | ->]; [congruence | reflexivity] | ..];
    cbn [NilEmpty.string_of_uint int_digits Pos.of_uint];
    match goal with
    | |- context [digit_value ?c] =>
        let v := eval vm_compute in (digit_value c) in
        change (digit_value c) with v; cbv iota
    end.
  - change (10 * 0 + 0) with 0. apply IH. now right.
  - apply (int_digits_acc d 1). now right.
  - apply (int_digits_acc d 2). now right.
  - apply (int_digits_acc d 3). now right.
  - apply (int_digits_acc d 4). now right.
  - apply (int_digits_acc d 5). now right.
  - apply (int_digits_acc d 6). now right.
  - apply (int_digits_acc d 7). now right.
  - apply (int_digits_acc d 8). now right.
  - apply (int_digits_acc d 9). now right.
Qed.

Lemma digits_no_space (d : Decimal.uint) (c : ascii) :
  c ∈ list_ascii_of_string (NilEmpty.string_of_uint d) -> int_isspace c = false.
Proof.
  induction d as [|d IH|d IH|d IH|d IH|d IH|d IH|d IH|d IH|d IH|d IH];
    cbn [NilEmpty.string_of_uint list_ascii_of_string];
    [intros H; now apply elem_of_nil in H | ..];
    (intros [-> | H]%elem_of_cons; [reflexivity | now apply IH]).
Qed.

Lemma rstrip_no_space (s : string) :
  (forall c, c ∈ list_ascii_of_string s -> int_isspace c = false) -> rstrip s = s.
Proof.
  induction s as [|a s IH]; intros Hs; [reflexivity|].
  cbn [rstrip]. rewrite IH.
  - destruct s; [|reflexivity].
    rewrite (Hs a); [reflexivity|]. cbn [list_ascii_of_string]. left.
  - intros c Hc. apply Hs. cbn [list_ascii_of_string]. now right.
Qed.

Lemma lstrip_no_space (a : ascii) (s : string) :
  int_isspace a = false -> lstrip (String a s) = String a s.
Proof. intros Ha. cbn [lstrip]. now rewrite Ha. Qed.

(** The decimal numeral of [n] is a literal of value [n]. *)
Lemma int_literal_decimal (n : Z) : int_literal (decimal n) = Some n.
Proof.
  destruct n as [|p|p]; [reflexivity|..];
    unfold decimal, Z.to_int, NilZero.string_of_int, NilZero.string_of_uint;
    pose proof (DecimalPos.Unsigned.to_uint_nonnil p) as Hnn;
    pose proof (DecimalPos.Unsigned.of_to p) as Hof;
    pose proof (digits_no_space (Pos.to_uint p)) as Hsp;
    pose proof (int_digits_zero (Pos.to_uint p) false (or_introl Hnn)) as Hval;
    rewrite Hof in Hval; cbn [Z.of_N] in Hval.
  - destruct (Pos.to_uint p) as [|d|d|d|d|d|d|d|d|d|d] eqn:Hd; [congruence|..];
      unfold int_literal; cbn [NilEmpty.string_of_uint] in *;
      rewrite lstrip_no_space by reflexivity;
      rewrite rstrip_no_space by exact Hsp;
      exact Hval.
  - unfold int_literal.
    assert (Hstr : NilEmpty.string_of_uint (Pos.to_uint p)
                   = match Pos.to_uint p with
                     | Decimal.Nil => "0"%string
                     | _ => NilEmpty.string_of_uint (Pos.to_uint p)
                     end) by (destruct (Pos.to_uint p); congruence).
    rewrite <- Hstr.
    rewrite lstrip_no_space by reflexivity.
    rewrite rstrip_no_space.
    + rewrite Hval. reflexivity.
    + intros c [-> | H]%elem_of_cons; [reflexivity | now apply Hsp].
Qed.

(** [int(str(n)) == n], for a numeral within the limit on digits. *)
Lemma int_decimal (max_str_digits : nat) (n : Z) :
  over_limit max_str_digits (count_digits (decimal n)) = false ->
  int max_str_digits (decimal n) = Some n.
Proof. intros Hlim. unfold int. rewrite Hlim. apply int_literal_decimal. Qed.

End IntOfStr.

(** ** More on the job-script generator *)

Section JobscriptMore.
Import Py Jobscript.
Implicit Types (a : args) (w : world).

(** An output path that cannot be opened: [OSError] leaves [open], and
    nothing is written or printed. *)
Lemma main_run_refused a w :
  can_open w (jobscript_file a) = false ->
  main a w = (Raised OSError, w).
Proof.
  intros Hopen. unfold main, with_open. unfold bind at 1. unfold bind at 1.
  unfold open_w. now rewrite Hopen.
Qed.

(** However [main] ends, the only file it creates or changes is the job
    script: every other path holds what it held. *)
Theorem main_touches_one_file a w (path : string) :
  path <> jobscript_file a ->
  files (main a w).2 !! path = files w !! path.
Proof.
  intros Hne. destruct (can_open w (jobscript_file a)) eqn:Hopen.
  - rewrite (main_run a w Hopen). cbv zeta.
    destruct (int _ (tasks_per_node a)) as [t|];
      [destruct (int _ (number_of_nodes a)) as [n|];
       [destruct (str_of_int _ (t * n))|]|];
      cbn [files snd]; now rewrite lookup_insert_ne by congruence.
  - now rewrite (main_run_refused a w Hopen).
Qed.

Lemma with_trailing_space_text (c : ascii) (s : string) :
  with_trailing_space (String c s) = String c s +:+ " ".
Proof. reflexivity. Qed.

Lemma with_trailing_space_app (c : ascii) (s t : string) :
  with_trailing_space (String c s +:+ t) = (String c s +:+ t) +:+ " ".
Proof. reflexivity. Qed.

(** Counts given as the decimal numerals of two integers [n] and [t],
    both within the interpreter's limit on digits, are read back as [n]
    and [t] whatever their sign (there is no range check).  When the
    numeral of [n * t] is within the limit too, [main] ends in
    [sys.exit(0)], and the job script is the format block for [n] and [t]
    with a space after every line that is not empty.  When the numeral of
    [n * t] is over the limit, printing the rank count raises
    [ValueError], and nothing is printed. *)
Theorem main_on_numerals a w (n t : Z) :
  can_open w (jobscript_file a) = true ->
  number_of_nodes a = decimal n ->
  tasks_per_node a = decimal t ->
  over_limit (int_max_str_digits w) (count_digits (decimal n)) = false ->
  over_limit (int_max_str_digits w) (count_digits (decimal t)) = false ->
  (over_limit (int_max_str_digits w) (count_digits (decimal (n * t))) = false ->
   exists w',
     main a w = (Exited 0, w')
     /\ files w' !! jobscript_file a
        = Some (unlines (map with_trailing_space
                           (spec_lines (account a) n t (namelist_file a)))))
  /\ (over_limit (int_max_str_digits w) (count_digits (decimal (n * t))) = true ->
      exists w', main a w = (Raised ValueError, w') /\ stdout w' = stdout w).
Proof.
  intros Hopen Hn Ht Hln Hlt.
  rewrite (main_run a w Hopen). cbv zeta.
  rewrite Hn, Ht, (int_decimal _ n Hln), (int_decimal _ t Hlt).
  unfold str_of_int. rewrite (Z.mul_comm t n). split; intros Hlim; rewrite Hlim.
  - eexists. split; [reflexivity|]. cbn [files]. rewrite lookup_insert_eq. f_equal.
    unfold spec_lines, unlines. cbn [map fold_right].
    rewrite !with_trailing_space_app, !with_trailing_space_text.
    change (with_trailing_space EmptyString) with EmptyString.
    rewrite !append_assoc, !append_nil. reflexivity.
  - eexists. split; reflexivity.
Qed.

End JobscriptMore.

(** ** [__str__] *)

Section ToStr.
Import Py BaseCase.

(** The text of an instance is the class line followed by one line
    [name = True] or [name = False] for each of the four flags, in the
    alphabetical order of the names (datm, domain, landuse, surfdata) and
    not in the order of the constructor; the last line has no newline, and
    no [KeyError] can occur. *)
Theorem to_str_lines (class_str : string) (self : t) :
  to_str class_str self
  = Some (class_str +:+ Jobscript.nl
          +:+ "create_datm = " +:+ str_of_bool (create_datm self) +:+ Jobscript.nl
          +:+ "create_domain = " +:+ str_of_bool (create_domain self) +:+ Jobscript.nl
          +:+ "create_landuse = " +:+ str_of_bool (create_landuse self) +:+ Jobscript.nl
          +:+ "create_surfdata = " +:+ str_of_bool (create_surfdata self)).
Proof.
  destruct self as [[] [] [] []]; reflexivity.
Qed.

End ToStr.

Section RunAgain.
Import Py Jobscript.
Implicit Types (a : args) (w : world).

(** The job script is opened for writing, not for appending: running
    [main] again on the files that a first run left gives the same job
    script, whether the runs end in [sys.exit(0)] or in [ValueError]. *)
Theorem main_again_same_script a w :
  can_open w (jobscript_file a) = true ->
  (main a (main a w).2).1 = (main a w).1
  /\ files (main a (main a w).2).2 = files (main a w).2.
Proof.
  intros Hopen.
  assert (Hopen' : can_open (main a w).2 (jobscript_file a) = true).
  { rewrite (main_run a w Hopen). cbv zeta.
    destruct (int _ (tasks_per_node a)) as [t|];
      [destruct (int _ (number_of_nodes a)) as [n|];
       [destruct (str_of_int _ (t * n))|]|];
      exact Hopen. }
  rewrite (main_run a (main a w).2 Hopen').
  assert (Hcap : int_max_str_digits (main a w).2 = int_max_str_digits w).
  { rewrite (main_run a w Hopen). cbv zeta.
    destruct (int _ (tasks_per_node a)) as [t|];
      [destruct (int _ (number_of_nodes a)) as [n|];
       [destruct (str_of_int _ (t * n))|]|];
      reflexivity. }
  rewrite Hcap. rewrite (main_run a w Hopen). cbv zeta.
  destruct (int _ (tasks_per_node a)) as [t|];
    [destruct (int _ (number_of_nodes a)) as [n|];
     [destruct (str_of_int _ (t * n))|]|];
    cbn [files fst snd]; split; try reflexivity; apply insert_insert_eq.
Qed.

End RunAgain.

Section SecondUpdate.
Import Py Xr BaseCase.
Context {elt : Type}.
Implicit Types (e : env elt) (nc : Dataset elt) (l : log) (self : t).

(** The dataset that one [update_metadata] left is what a further call
    returns. *)
Lemma update_metadata_settled self e nc l nc1 l1 l' :
  update_metadata self e nc l = (Returned nc1, l1) ->
  exists l2, update_metadata self e nc1 l' = (Returned nc1, l2).
Proof.
  intros Hrun.
  destruct (update_metadata_run self e nc l) as (nc1' & l1' & Hrun1 & Hv1 & Hc1 & Hat1).
  assert (nc1' = nc1) by congruence. subst nc1'. clear Hrun1 l1'.
  destruct (update_metadata_run self e nc1 l') as (nc2 & l2 & Hrun2 & Hv2 & Hc2 & Hat2).
  exists l2. rewrite Hrun2. f_equal. f_equal.
  destruct nc1 as [v1 c1 a1], nc2 as [v2 c2 a2]. cbn [variables coord_names attrs] in *.
  f_equal; [congruence | congruence |].
  apply map_eq. intros k. rewrite Hat2, Hat1.
  destruct (bool_decide (k ∈ del_attrs)) eqn:Hk; [reflexivity|].
  destruct (decide (k = "Created_with")) as [->|H1]; [now rewrite !lookup_insert_eq|].
  rewrite !(lookup_insert_ne _ "Created_with") by congruence.
  destruct (decide (k = "Created_by")) as [->|H2]; [now rewrite !lookup_insert_eq|].
  rewrite !(lookup_insert_ne _ "Created_by") by congruence.
  destruct (decide (k = "Created_on")) as [->|H3]; [now rewrite !lookup_insert_eq|].
  rewrite !(lookup_insert_ne _ "Created_on") by congruence.
  rewrite Hat1, Hk. now rewrite !lookup_insert_ne by congruence.
Qed.

(** After one [update_metadata] there is nothing left to delete: a second
    call on the dataset returns it as it is and logs nothing. *)
Theorem update_metadata_second_run_is_silent self e nc l :
  exists nc1 l1,
    update_metadata self e nc l = (Returned nc1, l1)
    /\ update_metadata self e nc1 l1 = (Returned nc1, l1).
Proof.
  destruct (update_metadata_run self e nc l) as (nc1 & l1 & Hrun1 & _ & _ & Hat).
  destruct (update_metadata_settled self e nc l nc1 l1 l1 Hrun1) as (l2 & Hrun2).
  destruct (update_metadata_logged self e nc1 l1) as (nc2 & Hlog).
  exists nc1, l1. split; [exact Hrun1|]. rewrite Hrun2. f_equal.
  rewrite Hrun2 in Hlog. injection Hlog as _ ->.
  rewrite <- (app_nil_r l1) at 2. f_equal.
  cbn [List.filter].
  rewrite !bool_decide_eq_false_2; [reflexivity|..];
    (intros [v Hv]%elem_of_dom; rewrite Hat in Hv; discriminate Hv).
Qed.

End SecondUpdate.

(** ** The theorems above at concrete inputs *)

Lemma create_1d_coord_missing_file_witness :
  BaseCase.create_1d_coord Examples.env0 "surfdata.nc" "LONGXY" "LATIXY" "lsmlon" "lsmlat" []
  = (Py.Raised Py.FileNotFoundError, [(Py.DEBUG, "Open file: surfdata.nc")]).
Proof.
  apply (create_1d_coord_missing_file Examples.env0 []).
  vm_compute. reflexivity.
Defined.

Lemma domain_dataset_sizes :
  Xr.calculate_dimensions (Xr.variables Examples.domain_dataset) = Some Examples.sizes.
Proof. vm_compute. reflexivity. Qed.

Lemma create_1d_coord_missing_field_witness :
  BaseCase.create_1d_coord Examples.env0 "domain.nc" "LONGXY" "LATIXY" "ni" "nj" []
  = (Py.Raised Py.KeyError, [(Py.DEBUG, "Open file: domain.nc")])
  /\ BaseCase.create_1d_coord Examples.env0 "domain.nc" "xc" "nj" "ni" "nj" []
     = (Py.Raised Py.IndexError, [(Py.DEBUG, "Open file: domain.nc")]).
Proof.
  split.
  - pose proof (create_1d_coord_missing_field Examples.env0 [] "domain.nc" "LONGXY" "LATIXY"
                  "ni" "nj" Examples.domain_dataset Examples.sizes
                  domain_file_on_disk domain_dataset_sizes) as H.
    cbv zeta in H. destruct H as [Hkey _]. apply Hkey. left.
    split; [vm_compute; reflexivity|]. split; [vm_compute; reflexivity|].
    intros ref Href. discriminate Href.
  - pose proof (create_1d_coord_missing_field Examples.env0 [] "domain.nc" "xc" "nj"
                  "ni" "nj" Examples.domain_dataset Examples.sizes
                  domain_file_on_disk domain_dataset_sizes) as H.
    cbv zeta in H. destruct H as [_ Hidx]. apply Hidx. right. split.
    + exists (Examples.grid [10; 20; 30; 10; 20; 30]),
             {| Np.shape := [3]%nat; Np.flat := [10; 20; 30] |}.
      split; vm_compute; reflexivity.
    + split; [vm_compute; reflexivity|]. exists 2%nat. vm_compute. reflexivity.
Defined.

Lemma profile_file_on_disk :
  BaseCase.disk MoreExamples.env1 !! "profile.nc" = Some MoreExamples.profile_dataset.
Proof. vm_compute. reflexivity. Qed.

Lemma cube_file_on_disk :
  BaseCase.disk MoreExamples.env1 !! "cube.nc" = Some MoreExamples.cube_dataset.
Proof. vm_compute. reflexivity. Qed.

Lemma create_1d_coord_bad_shape_witness :
  BaseCase.create_1d_coord MoreExamples.env1 "profile.nc" "xc" "yc" "ni" "nj" []
  = (Py.Raised Py.IndexError, [(Py.DEBUG, "Open file: profile.nc")]).
Proof.
  apply (create_1d_coord_bad_shape MoreExamples.env1 [] "profile.nc" "xc" "yc" "ni" "nj"
           MoreExamples.profile_dataset
           {| Xr.dims := ["n"];
              Xr.values := {| Np.shape := [3]%nat; Np.flat := [10; 20; 30] |} |}).
  - exact profile_file_on_disk.
  - vm_compute. reflexivity.
  - left. left. cbn. lia.
Defined.

Lemma create_1d_coord_too_many_axes_witness :
  BaseCase.create_1d_coord MoreExamples.env1 "cube.nc" "xc" "yc" "ni" "nj" []
  = (Py.Raised Py.ValueError, [(Py.DEBUG, "Open file: cube.nc")]).
Proof.
  apply (create_1d_coord_too_many_axes MoreExamples.env1 [] "cube.nc" "xc" "yc" "ni" "nj"
           MoreExamples.cube_dataset
           {| Xr.dims := ["time"; "nj"; "ni"];
              Xr.values := {| Np.shape := [1; 2; 3]%nat;
                              Np.flat := [10; 20; 30; 10; 20; 30] |} |}
           (Examples.grid [5; 5; 5; 6; 6; 6])
           {| Np.shape := [2]%nat; Np.flat := [5; 6] |} 0 2 3 []).
  - exact cube_file_on_disk.
  - vm_compute. reflexivity.
  - reflexivity.
  - vm_compute. reflexivity.
  - reflexivity.
Defined.

Lemma create_1d_coord_keeps_the_file_witness :
  exists f_out,
    BaseCase.create_1d_coord Examples.env0 "domain.nc" "xc" "yc" "ni" "nj" []
    = (Py.Returned f_out, [(Py.DEBUG, "Open file: domain.nc")])
    /\ Xr.attrs f_out = Xr.attrs Examples.domain_dataset.
Proof.
  destruct (create_1d_coord_keeps_the_file Examples.env0 [] "domain.nc" "xc" "yc" "ni" "nj"
              Examples.domain_dataset Examples.sizes _ _ 2 3
              domain_file_on_disk domain_dataset_grid_file)
    as (f_out & Hrun & _ & _ & _ & Hattrs).
  exists f_out. split; [exact Hrun | exact Hattrs].
Defined.

Lemma create_1d_coord_well_formed_witness :
  exists f_out,
    BaseCase.create_1d_coord Examples.env0 "domain.nc" "xc" "yc" "ni" "nj" []
    = (Py.Returned f_out, [(Py.DEBUG, "Open file: domain.nc")])
    /\ Xr.well_formed f_out Examples.sizes.
Proof.
  exact (create_1d_coord_well_formed Examples.env0 [] "domain.nc" "xc" "yc" "ni" "nj"
           Examples.domain_dataset Examples.sizes _ _ 2 3
           domain_file_on_disk domain_dataset_grid_file).
Defined.

Lemma create_1d_coord_regular_grid_witness :
  exists f_out (lon lat : Xr.Var Z),
    BaseCase.create_1d_coord Examples.env0 "domain.nc" "xc" "yc" "ni" "nj" []
    = (Py.Returned f_out, [(Py.DEBUG, "Open file: domain.nc")])
    /\ Xr.variables f_out !! "ni" = Some lon
    /\ Xr.variables f_out !! "nj" = Some lat.
Proof.
  destruct (create_1d_coord_regular_grid Examples.env0 [] "domain.nc" "xc" "yc" "ni" "nj"
              Examples.domain_dataset Examples.sizes _ _ 2 3
              domain_file_on_disk domain_dataset_grid_file)
    as (f_out & lon & lat & Hrun & Hx & Hy & _).
  - intros [|[|i]] [|[|[|j]]] Hi Hj; try lia; reflexivity.
  - intros [|[|i]] [|[|[|j]]] Hi Hj; try lia; reflexivity.
  - exists f_out, lon, lat. auto.
Defined.

Lemma add_tag_to_filename_ignores_directory_witness :
  (BaseCase.add_tag_to_filename Examples.env0 "/glade/data/domain.lnd_c210101.nc" "BRA" []).1
  = (BaseCase.add_tag_to_filename Examples.env0 "domain.lnd_c210101.nc" "BRA" []).1.
Proof.
  apply (add_tag_to_filename_ignores_directory Examples.env0 [] "/glade/data"
           "domain.lnd_c210101.nc" "BRA").
  apply (bool_decide_unpack _). vm_compute. exact I.
Defined.

Lemma add_tag_to_filename_twice_witness :
  exists tagged,
    BaseCase.add_tag_to_filename Examples.env0 "in/surfdata_c210101.nc" "BRA" []
    = (Py.Returned tagged, [])
    /\ BaseCase.add_tag_to_filename Examples.env0 tagged "v2" []
       = (Py.Returned "surfdata_BRA_v2_c261103.nc", []).
Proof.
  apply (add_tag_to_filename_twice Examples.env0 [] "in/surfdata_c210101.nc" "BRA" "v2"
           "surfdata" "_"%char "c210101.nc").
  - reflexivity.
  - now right.
  - right. split; reflexivity.
  - apply (bool_decide_unpack _). vm_compute. exact I.
Defined.

Lemma add_tag_to_filename_returns_only_tagged_witness :
  exists (prefix : string) (sep : ascii) (tail : string),
    PosixPath.basename "in/surfdata_c210101.nc" = prefix +:+ String sep tail
    /\ (sep = "."%char \/ sep = "_"%char).
Proof.
  destruct (add_tag_to_filename_returns_only_tagged Examples.env0 []
              "in/surfdata_c210101.nc" "BRA" "surfdata_BRA_c261103.nc" [])
    as (prefix & sep & tail & Hb & Hsep & _).
  - vm_compute. reflexivity.
  - exists prefix, sep, tail. split; [exact Hb | exact Hsep].
Defined.

Lemma update_metadata_leaves_the_rest_witness :
  exists nc' l',
    BaseCase.update_metadata Examples.case0 Examples.env0 Examples.domain_dataset []
    = (Py.Returned nc', l')
    /\ Xr.attrs nc' !! "title" = Xr.attrs Examples.domain_dataset !! "title"
    /\ Xr.attrs nc' !! "History_Log" = Xr.attrs Examples.domain_dataset !! "History_Log".
Proof.
  destruct (update_metadata_leaves_the_rest Examples.case0 Examples.env0
              Examples.domain_dataset [])
    as (nc' & l' & Hrun & _ & _ & Hkeep).
  exists nc', l'. split; [exact Hrun|].
  split; apply Hkeep; apply (bool_decide_unpack _); vm_compute; exact I.
Defined.

Lemma main_touches_one_file_witness :
  Jobscript.files (Jobscript.main Examples.args0 Examples.world0).2 !! "nl.txt"
  = Jobscript.files Examples.world0 !! "nl.txt".
Proof.
  apply (main_touches_one_file Examples.args0 Examples.world0 "nl.txt"). discriminate.
Defined.

Lemma main_on_numerals_witness :
  exists w',
    Jobscript.main MoreExamples.args_numerals Examples.world0 = (Py.Exited 0, w')
    /\ Jobscript.files w' !! "mksurfdata_jobscript_single"
       = Some (Jobscript.unlines
                 (map Jobscript.with_trailing_space
                    (Jobscript.spec_lines "P93300606" (-2) 36 "surfdata.namelist"))).
Proof.
  apply (main_on_numerals MoreExamples.args_numerals Examples.world0 (-2) 36);
    reflexivity.
Defined.

Lemma numerals_product_over_limit :
  Py.over_limit 4300 (Py.count_digits (Py.decimal (10 ^ 2200))) = false
  /\ Py.over_limit 4300 (Py.count_digits (Py.decimal (10 ^ 2200 * 10 ^ 2200))) = true.
Proof. split; vm_compute; reflexivity. Qed.

Lemma main_again_same_script_witness :
  (Jobscript.main Examples.args_bad (Jobscript.main Examples.args_bad Examples.world0).2).1
  = (Jobscript.main Examples.args_bad Examples.world0).1.
Proof.
  apply (main_again_same_script Examples.args_bad Examples.world0). reflexivity.
Defined.
